(** * Option modifiers of the maritaca LLM client (llms/maritaca/options.go)

    A shallow embedding of the [options] struct and of the sixteen [With...]
    modifiers of package [maritaca], with the part of Go's [net/url] that
    [WithServerURL] calls ([url.Parse] and what it depends on), followed by
    the properties of the configuration builder.

    Conventions of the embedding:
    - a Go [string] is a sequence of bytes: [String.string] (8-bit [ascii]);
    - a Go [int] is a [Z]; the modifiers only store it, no arithmetic is done;
    - a Go [float64] is a binary64 primitive float ([PrimFloat.float]);
    - a Go [[]string] is a [list string];
    - a pointer is an [option]: [None] is [nil];
    - a call that may end in [log.Fatal] returns an [outcome]. *)

From Stdlib Require Import String Ascii List Bool NArith ZArith Lia PrimFloat.
Import ListNotations.

Set Warnings "-inexact-float".

Local Open Scope string_scope.

(* ------------------------------------------------------------------ *)
(** ** Helpers of Go's [strings] package, on byte strings *)

Module strings.

(** [s[n:]] *)
Fixpoint from (n : nat) (s : string) : string :=
  match n, s with
  | O, _ => s
  | S n', String _ s' => from n' s'
  | S _, EmptyString => EmptyString
  end.

(** [s[:n]] *)
Fixpoint upto (n : nat) (s : string) : string :=
  match n, s with
  | O, _ => EmptyString
  | S n', String c s' => String c (upto n' s')
  | S _, EmptyString => EmptyString
  end.

(** [strings.HasPrefix(s, p)] *)
Definition HasPrefix (s p : string) : bool := String.prefix p s.

(** [strings.HasSuffix(s, p)] *)
Definition HasSuffix (s p : string) : bool :=
  let n := String.length s in
  let m := String.length p in
  (m <=? n)%nat && String.eqb (from (n - m) s) p.

(** [strings.Index(s, sep)], with [None] for Go's [-1]; [i] is the offset of
    [s] in the string searched. *)
Fixpoint IndexFrom (i : nat) (s sep : string) : option nat :=
  if HasPrefix s sep then Some i
  else match s with
       | EmptyString => None
       | String _ s' => IndexFrom (S i) s' sep
       end.

Definition Index (s sep : string) : option nat := IndexFrom 0 s sep.

(** [strings.LastIndex(s, sep)], with [None] for Go's [-1]. *)
Fixpoint LastIndexFrom (i : nat) (s sep : string) : option nat :=
  match s with
  | EmptyString => if HasPrefix s sep then Some i else None
  | String _ s' =>
      match LastIndexFrom (S i) s' sep with
      | Some j => Some j
      | None => if HasPrefix s sep then Some i else None
      end
  end.

Definition LastIndex (s sep : string) : option nat := LastIndexFrom 0 s sep.

(** [strings.Contains(s, sep)] *)
Definition Contains (s sep : string) : bool :=
  match Index s sep with Some _ => true | None => false end.

(** [strings.Cut(s, sep)]: the text before and after the first [sep], and
    whether [sep] was found. *)
Definition Cut (s sep : string) : string * string * bool :=
  match Index s sep with
  | Some i => (upto i s, from (i + String.length sep) s, true)
  | None => (s, EmptyString, false)
  end.

(** [strings.Count(s, sep)] for a separator of one byte. *)
Fixpoint CountByte (s : string) (c : ascii) : nat :=
  match s with
  | EmptyString => 0
  | String d s' => (if Ascii.eqb d c then 1 else 0) + CountByte s' c
  end.

(** [strings.ToLower] on a string of ASCII bytes. *)
Definition lowerByte (c : ascii) : ascii :=
  let n := N_of_ascii c in
  if (65 <=? n)%N && (n <=? 90)%N then ascii_of_N (n + 32) else c.

Fixpoint ToLower (s : string) : string :=
  match s with
  | EmptyString => EmptyString
  | String c s' => String (lowerByte c) (ToLower s')
  end.

End strings.

(* ------------------------------------------------------------------ *)
(** ** Go's [net/url]: the [URL] value and [url.Parse] *)

Module url.

(** The errors [Parse] can return. [UrlError] is [*url.Error], which wraps
    the cause with the operation and the text being parsed. *)
Inductive error : Type :=
| errorString (msg : string)
| EscapeError (s : string)
| InvalidHostError (s : string)
| InvalidPortError (colonPort : string)
| UrlError (Op : string) (URL : string) (Err : error).

Record Userinfo : Type := mkUserinfo {
  username : string;
  password : string;
  passwordSet : bool
}.

Record URL : Type := mkURL {
  Scheme : string;
  Opaque : string;
  User : option Userinfo;
  Host : string;
  Path : string;
  RawPath : string;
  OmitHost : bool;
  ForceQuery : bool;
  RawQuery : string;
  Fragment : string;
  RawFragment : string
}.

(** [new(URL)]: every field at its zero value. *)
Definition zeroURL : URL :=
  mkURL "" "" None "" "" "" false false "" "" "".

Inductive encoding : Type :=
| encodePath
| encodePathSegment
| encodeHost
| encodeZone
| encodeUserPassword
| encodeQueryComponent
| encodeFragment.

Definition encoding_eqb (a b : encoding) : bool :=
  match a, b with
  | encodePath, encodePath
  | encodePathSegment, encodePathSegment
  | encodeHost, encodeHost
  | encodeZone, encodeZone
  | encodeUserPassword, encodeUserPassword
  | encodeQueryComponent, encodeQueryComponent
  | encodeFragment, encodeFragment => true
  | _, _ => false
  end.

(** [lo <= c && c <= hi] on bytes. *)
Definition between (lo hi c : ascii) : bool :=
  (N_of_ascii lo <=? N_of_ascii c)%N && (N_of_ascii c <=? N_of_ascii hi)%N.

Definition isAlpha (c : ascii) : bool :=
  between "a" "z" c || between "A" "Z" c.

Definition isDigit (c : ascii) : bool := between "0" "9" c.

(** [c] is one of the bytes of [set]. *)
Fixpoint oneOf (set : string) (c : ascii) : bool :=
  match set with
  | EmptyString => false
  | String d set' => Ascii.eqb c d || oneOf set' c
  end.

Definition ishex (c : ascii) : bool :=
  between "0" "9" c || between "a" "f" c || between "A" "F" c.

Definition unhex (c : ascii) : N :=
  let n := N_of_ascii c in
  if between "0" "9" c then (n - 48)%N
  else if between "a" "f" c then (n - 97 + 10)%N
  else if between "A" "F" c then (n - 65 + 10)%N
  else 0%N.

(** [unhex(a)<<4 | unhex(b)] *)
Definition hexByte (a b : ascii) : ascii :=
  ascii_of_N (N.lor (N.shiftl (unhex a) 4) (unhex b)).

(** The double quote and the apostrophe, as bytes. *)
Definition dquote : ascii := ascii_of_N 34.
Definition squote : ascii := ascii_of_N 39.

(** [shouldEscape(c, mode)]: whether [c] must be escaped in that part of a
    URL, according to RFC 3986. *)
Definition shouldEscape (c : ascii) (mode : encoding) : bool :=
  if isAlpha c || isDigit c then false
  else if (encoding_eqb mode encodeHost || encoding_eqb mode encodeZone)
          && (oneOf "!$&()*+,;=:[]<>" c || Ascii.eqb c squote || Ascii.eqb c dquote)
  then false
  else if oneOf "-_.~" c then false
  else if oneOf "$&+,/:;=?@" c then
    match mode with
    | encodePath => Ascii.eqb c "?"
    | encodePathSegment => oneOf "/;,?" c
    | encodeUserPassword => oneOf "@/?:" c
    | encodeQueryComponent => true
    | encodeFragment => false
    | encodeHost | encodeZone => true
    end
  else if encoding_eqb mode encodeFragment && oneOf "!()*" c then false
  else true.

(** Results of the parsing functions: Go's [(value, error)] pairs, of which
    exactly one side is meaningful. *)
Inductive result (A : Type) : Type :=
| Ok (a : A)
| Err (e : error).
Arguments Ok {A} a.
Arguments Err {A} e.

Definition bind {A B : Type} (r : result A) (k : A -> result B) : result B :=
  match r with
  | Ok a => k a
  | Err e => Err e
  end.

Notation "x <- r ;; k" := (bind r (fun x => k))
  (at level 61, r at next level, right associativity).
Notation "' pat <- r ;; k" := (bind r (fun x => match x with pat => k end))
  (at level 61, pat pattern, r at next level, right associativity).

(** First loop of [unescape]: counts the [%] escapes in [n], checks that
    they are well formed and allowed in [mode], and notes a [+] of a query
    component. [s] is [s[i:]] of the source. *)
Fixpoint unescapeScan (s : string) (mode : encoding) (n : nat) (hasPlus : bool)
  : result (nat * bool) :=
  match s with
  | EmptyString => Ok (n, hasPlus)
  | String c rest =>
      if Ascii.eqb c "%" then
        match rest with
        | String a (String b rest') =>
            if negb (ishex a) || negb (ishex b) then
              Err (EscapeError (strings.upto 3 s))
            else if encoding_eqb mode encodeHost && (unhex a <? 8)%N
                    && negb (String.eqb (strings.upto 3 s) "%25") then
              Err (EscapeError (strings.upto 3 s))
            else if encoding_eqb mode encodeZone
                    && negb (String.eqb (strings.upto 3 s) "%25")
                    && negb (Ascii.eqb (hexByte a b) " ")
                    && shouldEscape (hexByte a b) encodeHost then
              Err (EscapeError (strings.upto 3 s))
            else unescapeScan rest' mode (S n) hasPlus
        | _ => Err (EscapeError (strings.upto 3 s))
        end
      else if Ascii.eqb c "+" then
        unescapeScan rest mode n (encoding_eqb mode encodeQueryComponent)
      else if (encoding_eqb mode encodeHost || encoding_eqb mode encodeZone)
              && (N_of_ascii c <? 128)%N && shouldEscape c encodeHost then
        Err (InvalidHostError (String c EmptyString))
      else unescapeScan rest mode n hasPlus
  end.

(** Second loop of [unescape]: the decoded text. A [%] is followed by two
    hex digits here, the first loop has checked it. *)
Fixpoint unescapeDecode (s : string) (mode : encoding) : string :=
  match s with
  | EmptyString => EmptyString
  | String c rest =>
      if Ascii.eqb c "%" then
        match rest with
        | String a (String b rest') =>
            String (hexByte a b) (unescapeDecode rest' mode)
        | _ => String c (unescapeDecode rest mode)
        end
      else if Ascii.eqb c "+" then
        String (if encoding_eqb mode encodeQueryComponent then " " else "+")%char
               (unescapeDecode rest mode)
      else String c (unescapeDecode rest mode)
  end.

Definition unescape (s : string) (mode : encoding) : result string :=
  '(n, hasPlus) <- unescapeScan s mode 0 false ;;
  if (n =? 0)%nat && negb hasPlus then Ok s
  else Ok (unescapeDecode s mode).

Definition upperhex : string := "0123456789ABCDEF".

Definition hexDigit (n : N) : ascii :=
  match String.get (N.to_nat n) upperhex with
  | Some d => d
  | None => "0"%char
  end.

(** The two counters of [escape]: [(spaceCount, hexCount)]. *)
Fixpoint escapeCount (s : string) (mode : encoding) : nat * nat :=
  match s with
  | EmptyString => (0, 0)%nat
  | String c rest =>
      let '(sp, hx) := escapeCount rest mode in
      if shouldEscape c mode then
        if Ascii.eqb c " " && encoding_eqb mode encodeQueryComponent
        then (S sp, hx) else (sp, S hx)
      else (sp, hx)
  end.

Fixpoint escapeBuild (s : string) (mode : encoding) : string :=
  match s with
  | EmptyString => EmptyString
  | String c rest =>
      if shouldEscape c mode then
        if Ascii.eqb c " " && encoding_eqb mode encodeQueryComponent then
          String "+" (escapeBuild rest mode)
        else
          String "%"
            (String (hexDigit (N.shiftr (N_of_ascii c) 4))
               (String (hexDigit (N.land (N_of_ascii c) 15))
                  (escapeBuild rest mode)))
      else String c (escapeBuild rest mode)
  end.

Definition escape (s : string) (mode : encoding) : string :=
  let '(spaceCount, hexCount) := escapeCount s mode in
  if (spaceCount =? 0)%nat && (hexCount =? 0)%nat then s
  else escapeBuild s mode.

(** [stringContainsCTLByte]: some byte is below the space or is DEL. *)
Fixpoint stringContainsCTLByte (s : string) : bool :=
  match s with
  | EmptyString => false
  | String b rest =>
      if (N_of_ascii b <? 32)%N || (N_of_ascii b =? 127)%N then true
      else stringContainsCTLByte rest
  end.

(** The loop of [getScheme]; [s] is [rawURL[i:]]. The result is
    [(scheme, path)]. *)
Fixpoint getSchemeFrom (rawURL : string) (i : nat) (s : string)
  : result (string * string) :=
  match s with
  | EmptyString => Ok (EmptyString, rawURL)
  | String c s' =>
      if isAlpha c then getSchemeFrom rawURL (S i) s'
      else if isDigit c || oneOf "+-." c then
        if (i =? 0)%nat then Ok (EmptyString, rawURL)
        else getSchemeFrom rawURL (S i) s'
      else if Ascii.eqb c ":" then
        if (i =? 0)%nat then Err (errorString "missing protocol scheme")
        else Ok (strings.upto i rawURL, strings.from (S i) rawURL)
      else Ok (EmptyString, rawURL)
  end.

Definition getScheme (rawURL : string) : result (string * string) :=
  getSchemeFrom rawURL 0 rawURL.

(** [validOptionalPort]: empty, or a colon followed by digits only. *)
Fixpoint allDigits (s : string) : bool :=
  match s with
  | EmptyString => true
  | String b rest => if isDigit b then allDigits rest else false
  end.

Definition validOptionalPort (port : string) : bool :=
  match port with
  | EmptyString => true
  | String c rest => if Ascii.eqb c ":" then allDigits rest else false
  end.

(** [validUserinfo]: only the bytes RFC 3986 allows in a userinfo. *)
Fixpoint validUserinfo (s : string) : bool :=
  match s with
  | EmptyString => true
  | String r rest =>
      if between "A" "Z" r || between "a" "z" r || between "0" "9" r
         || oneOf "-._:~!$&()*+,;=%@" r || Ascii.eqb r squote
      then validUserinfo rest
      else false
  end.

Definition parseHost (host : string) : result string :=
  if strings.HasPrefix host "[" then
    match strings.LastIndex host "]" with
    | None => Err (errorString "missing ']' in host")
    | Some i =>
        let colonPort := strings.from (i + 1) host in
        if negb (validOptionalPort colonPort) then
          Err (InvalidPortError colonPort)
        else
          match strings.Index (strings.upto i host) "%25" with
          | Some zone =>
              host1 <- unescape (strings.upto zone host) encodeHost ;;
              host2 <- unescape (strings.from zone (strings.upto i host)) encodeZone ;;
              host3 <- unescape (strings.from i host) encodeHost ;;
              Ok (host1 ++ host2 ++ host3)
          | None => unescape host encodeHost
          end
    end
  else
    match strings.LastIndex host ":" with
    | Some i =>
        let colonPort := strings.from i host in
        if negb (validOptionalPort colonPort) then
          Err (InvalidPortError colonPort)
        else unescape host encodeHost
    | None => unescape host encodeHost
    end.

Definition parseAuthority (authority : string)
  : result (option Userinfo * string) :=
  match strings.LastIndex authority "@" with
  | None =>
      host <- parseHost authority ;;
      Ok (None, host)
  | Some i =>
      host <- parseHost (strings.from (i + 1) authority) ;;
      let userinfo := strings.upto i authority in
      if negb (validUserinfo userinfo) then
        Err (errorString "net/url: invalid userinfo")
      else if negb (strings.Contains userinfo ":") then
        userinfo <- unescape userinfo encodeUserPassword ;;
        Ok (Some (mkUserinfo userinfo EmptyString false), host)
      else
        let '(username, password, _) := strings.Cut userinfo ":" in
        username <- unescape username encodeUserPassword ;;
        password <- unescape password encodeUserPassword ;;
        Ok (Some (mkUserinfo username password true), host)
  end.

(** [u.setPath(p)]: sets [Path] to the decoded [p], and [RawPath] to [p]
    when the default encoding of [Path] is not [p]. *)
Definition setPath (u : URL) (p : string) : result URL :=
  path <- unescape p encodePath ;;
  let raw := if String.eqb p (escape path encodePath) then EmptyString else p in
  Ok (mkURL (Scheme u) (Opaque u) (User u) (Host u) path raw
            (OmitHost u) (ForceQuery u) (RawQuery u)
            (Fragment u) (RawFragment u)).

(** [u.setFragment(f)], in the same way. *)
Definition setFragment (u : URL) (f : string) : result URL :=
  frag <- unescape f encodeFragment ;;
  let raw := if String.eqb f (escape frag encodeFragment) then EmptyString else f in
  Ok (mkURL (Scheme u) (Opaque u) (User u) (Host u) (Path u) (RawPath u)
            (OmitHost u) (ForceQuery u) (RawQuery u) frag raw).

(** [parse(rawURL, viaRequest)]: parses a URL without its fragment. *)
Definition parse (rawURL : string) (viaRequest : bool) : result URL :=
  if stringContainsCTLByte rawURL then
    Err (errorString "net/url: invalid control character in URL")
  else if String.eqb rawURL EmptyString && viaRequest then
    Err (errorString "empty url")
  else if String.eqb rawURL "*" then
    Ok (mkURL "" "" None "" "*" "" false false "" "" "")
  else
    '(scheme0, rest0) <- getScheme rawURL ;;
    let scheme := strings.ToLower scheme0 in
    let '(forceQuery, rest, rawQuery) :=
      if strings.HasSuffix rest0 "?" && (strings.CountByte rest0 "?" =? 1)%nat
      then (true, strings.upto (String.length rest0 - 1) rest0, EmptyString)
      else let '(r, q, _) := strings.Cut rest0 "?" in (false, r, q) in
    let u := mkURL scheme "" None "" "" "" false forceQuery rawQuery "" "" in
    if negb (strings.HasPrefix rest "/") && negb (String.eqb scheme EmptyString) then
      Ok (mkURL scheme rest None "" "" "" false forceQuery rawQuery "" "")
    else if negb (strings.HasPrefix rest "/") && viaRequest then
      Err (errorString "invalid URI for request")
    else if negb (strings.HasPrefix rest "/")
            && (let '(segment, _, _) := strings.Cut rest "/" in
                strings.Contains segment ":") then
      Err (errorString "first path segment in URL cannot contain colon")
    else if (negb (String.eqb scheme EmptyString)
             || negb viaRequest && negb (strings.HasPrefix rest "///"))
            && strings.HasPrefix rest "//" then
      let authority0 := strings.from 2 rest in
      let '(authority, rest') :=
        match strings.Index authority0 "/" with
        | Some i => (strings.upto i authority0, strings.from i authority0)
        | None => (authority0, EmptyString)
        end in
      '(user, host) <- parseAuthority authority ;;
      setPath (mkURL scheme "" user host "" "" false forceQuery rawQuery "" "") rest'
    else if negb (String.eqb scheme EmptyString) && strings.HasPrefix rest "/" then
      setPath (mkURL scheme "" None "" "" "" true forceQuery rawQuery "" "") rest
    else setPath u rest.

(** [url.Parse(rawURL)]: cuts the fragment off, parses the rest, then sets
    the fragment. Every error is wrapped in a [*url.Error]. *)
Definition Parse (rawURL : string) : result URL :=
  let '(u, frag, _) := strings.Cut rawURL "#" in
  match parse u false with
  | Err err => Err (UrlError "parse" u err)
  | Ok url =>
      if String.eqb frag EmptyString then Ok url
      else match setFragment url frag with
           | Err err => Err (UrlError "parse" rawURL err)
           | Ok url' => Ok url'
           end
  end.

(** [validEncoded(s, mode)]: whether [s] is a valid encoded path or
    fragment, according to [mode]. *)
Fixpoint validEncoded (s : string) (mode : encoding) : bool :=
  match s with
  | EmptyString => true
  | String c rest =>
      if oneOf "!$&()*+,;=:@" c || Ascii.eqb c squote then validEncoded rest mode
      else if oneOf "[]" c then validEncoded rest mode
      else if Ascii.eqb c "%" then validEncoded rest mode
      else if shouldEscape c mode then false
      else validEncoded rest mode
  end.

(** [u.EscapedPath()]: [RawPath] when it is a valid encoding of [Path],
    else the default encoding of [Path]. *)
Definition EscapedPath (u : URL) : string :=
  let useRaw :=
    if negb (String.eqb (RawPath u) EmptyString)
       && validEncoded (RawPath u) encodePath then
      match unescape (RawPath u) encodePath with
      | Ok p => String.eqb p (Path u)
      | Err _ => false
      end
    else false in
  if useRaw then RawPath u
  else if String.eqb (Path u) "*" then "*"
  else escape (Path u) encodePath.

(** [u.EscapedFragment()], in the same way. *)
Definition EscapedFragment (u : URL) : string :=
  let useRaw :=
    if negb (String.eqb (RawFragment u) EmptyString)
       && validEncoded (RawFragment u) encodeFragment then
      match unescape (RawFragment u) encodeFragment with
      | Ok f => String.eqb f (Fragment u)
      | Err _ => false
      end
    else false in
  if useRaw then RawFragment u
  else escape (Fragment u) encodeFragment.

(** The [String] method of [Userinfo], on a non-nil receiver: the encoded
    [username[:password]]. *)
Definition UserinfoString (ui : Userinfo) : string :=
  let s := escape (username ui) encodeUserPassword in
  if passwordSet ui then s ++ ":" ++ escape (password ui) encodeUserPassword
  else s.

Definition isSome {A : Type} (o : option A) : bool :=
  match o with Some _ => true | None => false end.

Definition nonEmpty (s : string) : bool := negb (String.eqb s EmptyString).

(** [u.String()]: reassembles the URL into a string. The pieces are appended
    to the buffer in the order of the source; [authority] is what is in the
    buffer after the scheme, before the path. *)
Definition String (u : URL) : string :=
  let scheme :=
    if nonEmpty (Scheme u) then Scheme u ++ ":" else EmptyString in
  let body :=
    if nonEmpty (Opaque u) then Opaque u
    else
      let authority :=
        if nonEmpty (Scheme u) || nonEmpty (Host u) || isSome (User u) then
          if OmitHost u && negb (nonEmpty (Host u)) && negb (isSome (User u))
          then EmptyString
          else
            (if nonEmpty (Host u) || nonEmpty (Path u) || isSome (User u)
             then "//" else EmptyString)
            ++ (match User u with
                | Some ui => UserinfoString ui ++ "@"
                | None => EmptyString
                end)
            ++ (if nonEmpty (Host u) then escape (Host u) encodeHost
                else EmptyString)
        else EmptyString in
      let path := EscapedPath u in
      let slash :=
        if nonEmpty path && negb (strings.HasPrefix path "/")
           && nonEmpty (Host u)
        then "/" else EmptyString in
      let dot :=
        if String.eqb (scheme ++ authority ++ slash) EmptyString
           && (let '(segment, _, _) := strings.Cut path "/" in
               strings.Contains segment ":")
        then "./" else EmptyString in
      authority ++ slash ++ dot ++ path in
  let query :=
    if ForceQuery u || nonEmpty (RawQuery u) then "?" ++ RawQuery u
    else EmptyString in
  let fragment :=
    if nonEmpty (Fragment u) then "#" ++ EscapedFragment u
    else EmptyString in
  scheme ++ body ++ query ++ fragment.

End url.

(* ------------------------------------------------------------------ *)
(** ** Go's [net/http]: the client handle *)

Module http.

(** [*http.Client]. The modifiers only store the pointer they are given, so
    a client is the address it lives at; [None] is the [nil] pointer. *)
Definition ClientRef : Type := option N.

End http.

(* ------------------------------------------------------------------ *)
(** ** Package [maritacaclient]: the request options *)

Module maritacaclient.

(** Modelled from the spec: the declaration of [maritacaclient.Options]
    (package internal/maritacaclient) is not part of the sources at hand.
    The fields are the ones options.go assigns, with the types of the values
    it assigns to them; they are the GenerationParameters of the data
    model. *)
Record Options : Type := mkOptions {
  ChatMode : bool;
  MaxTokens : Z;
  DoSample : bool;
  Temperature : float;
  TopP : float;
  RepetitionPenalty : float;
  StoppingTokens : list string;
  Stream : bool;
  NumTokensPerMessage : Z;
  Token : string
}.

End maritacaclient.

(* ------------------------------------------------------------------ *)
(** ** Package [maritaca]: options.go *)

Module maritaca.

Import maritacaclient.

Record options : Type := mk_options {
  maritacaServerURL : option url.URL;
  httpClient : http.ClientRef;
  model : string;
  maritacaOptions : maritacaclient.Options;
  customModelTemplate : string;
  system : string;
  format : string
}.

(** What a call of a modifier on the struct does: it returns, leaving the
    struct as [opts], or it ends the process in [log.Fatal(err)], the struct
    being [opts] at that moment. *)
Inductive outcome : Type :=
| Returned (opts : options)
| Fatal (err : url.error) (opts : options).

(** The type [Option] of the modifiers: a function on a pointer to the
    [options] struct, which it updates in place. *)
Definition Option : Type := options -> outcome.

(** The struct a call leaves behind. *)
Definition final (r : outcome) : options :=
  match r with
  | Returned opts => opts
  | Fatal _ opts => opts
  end.

(** Assignment to a field of [opts.maritacaOptions]. *)
Definition with_maritacaOptions (opts : options) (m : maritacaclient.Options)
  : options :=
  mk_options (maritacaServerURL opts) (httpClient opts) (model opts) m
             (customModelTemplate opts) (system opts) (format opts).

(** WithModel Set the model to use. *)
Definition WithModel (model : string) : Option := fun opts =>
  Returned (mk_options (maritacaServerURL opts) (httpClient opts) model
              (maritacaOptions opts) (customModelTemplate opts)
              (system opts) (format opts)).

(** WithFormat Sets the maritaca output format. *)
Definition WithFormat (format : string) : Option := fun opts =>
  Returned (mk_options (maritacaServerURL opts) (httpClient opts) (model opts)
              (maritacaOptions opts) (customModelTemplate opts)
              (system opts) format).

(** WithSystemPrompt Set the system prompt. *)
Definition WithSystemPrompt (p : string) : Option := fun opts =>
  Returned (mk_options (maritacaServerURL opts) (httpClient opts) (model opts)
              (maritacaOptions opts) (customModelTemplate opts)
              p (format opts)).

(** WithCustomTemplate To override the templating done on maritaca model
    side. *)
Definition WithCustomTemplate (template : string) : Option := fun opts =>
  Returned (mk_options (maritacaServerURL opts) (httpClient opts) (model opts)
              (maritacaOptions opts) template
              (system opts) (format opts)).

(** WithServerURL Set the URL of the maritaca instance to use. The result of
    [url.Parse] is assigned first (a [nil] URL with an error), then the error
    is checked. *)
Definition WithServerURL (rawURL : string) : Option := fun opts =>
  match url.Parse rawURL with
  | url.Ok u =>
      Returned (mk_options (Some u) (httpClient opts) (model opts)
                  (maritacaOptions opts) (customModelTemplate opts)
                  (system opts) (format opts))
  | url.Err err =>
      Fatal err (mk_options None (httpClient opts) (model opts)
                   (maritacaOptions opts) (customModelTemplate opts)
                   (system opts) (format opts))
  end.

(** WithHTTPClient Set custom http client. *)
Definition WithHTTPClient (client : http.ClientRef) : Option := fun opts =>
  Returned (mk_options (maritacaServerURL opts) client (model opts)
              (maritacaOptions opts) (customModelTemplate opts)
              (system opts) (format opts)).

(** WithChatMode Set the chat mode. *)
Definition WithChatMode (chatMode : bool) : Option := fun opts =>
  let m := maritacaOptions opts in
  Returned (with_maritacaOptions opts
    (mkOptions chatMode (MaxTokens m) (DoSample m) (Temperature m) (TopP m)
       (RepetitionPenalty m) (StoppingTokens m) (Stream m)
       (NumTokensPerMessage m) (Token m))).

(** WithMaxTokens Set the maximum number of tokens that will be generated by
    the mode. *)
Definition WithMaxTokens (maxTokens : Z) : Option := fun opts =>
  let m := maritacaOptions opts in
  Returned (with_maritacaOptions opts
    (mkOptions (ChatMode m) maxTokens (DoSample m) (Temperature m) (TopP m)
       (RepetitionPenalty m) (StoppingTokens m) (Stream m)
       (NumTokensPerMessage m) (Token m))).

(** WithDoSample Set the model's generation will be sampled via top-k
    sampling. *)
Definition WithDoSample (doSample : bool) : Option := fun opts =>
  let m := maritacaOptions opts in
  Returned (with_maritacaOptions opts
    (mkOptions (ChatMode m) (MaxTokens m) doSample (Temperature m) (TopP m)
       (RepetitionPenalty m) (StoppingTokens m) (Stream m)
       (NumTokensPerMessage m) (Token m))).

(** WithTemperature Set the sampling temperature. *)
Definition WithTemperature (temperature : float) : Option := fun opts =>
  let m := maritacaOptions opts in
  Returned (with_maritacaOptions opts
    (mkOptions (ChatMode m) (MaxTokens m) (DoSample m) temperature (TopP m)
       (RepetitionPenalty m) (StoppingTokens m) (Stream m)
       (NumTokensPerMessage m) (Token m))).

(** WithTopP Set the number of top tokens to consider for sampling. *)
Definition WithTopP (topP : float) : Option := fun opts =>
  let m := maritacaOptions opts in
  Returned (with_maritacaOptions opts
    (mkOptions (ChatMode m) (MaxTokens m) (DoSample m) (Temperature m) topP
       (RepetitionPenalty m) (StoppingTokens m) (Stream m)
       (NumTokensPerMessage m) (Token m))).

(** WithRepetitionPenalty Set the repetition penalty. *)
Definition WithRepetitionPenalty (repetitionPenalty : float) : Option :=
  fun opts =>
  let m := maritacaOptions opts in
  Returned (with_maritacaOptions opts
    (mkOptions (ChatMode m) (MaxTokens m) (DoSample m) (Temperature m) (TopP m)
       repetitionPenalty (StoppingTokens m) (Stream m)
       (NumTokensPerMessage m) (Token m))).

(** WithStoppingTokens List of tokens that, when generated, indicate that
    the model should stop generating tokens. *)
Definition WithStoppingTokens (tokens : list string) : Option := fun opts =>
  let m := maritacaOptions opts in
  Returned (with_maritacaOptions opts
    (mkOptions (ChatMode m) (MaxTokens m) (DoSample m) (Temperature m) (TopP m)
       (RepetitionPenalty m) tokens (Stream m)
       (NumTokensPerMessage m) (Token m))).

(** WithStream Set the model will run in streaming mode. *)
Definition WithStream (stream : bool) : Option := fun opts =>
  let m := maritacaOptions opts in
  Returned (with_maritacaOptions opts
    (mkOptions (ChatMode m) (MaxTokens m) (DoSample m) (Temperature m) (TopP m)
       (RepetitionPenalty m) (StoppingTokens m) stream
       (NumTokensPerMessage m) (Token m))).

(** WithTokensPerMessage Set the number of tokens that will be returned per
    message. *)
Definition WithTokensPerMessage (tokensPerMessage : Z) : Option := fun opts =>
  let m := maritacaOptions opts in
  Returned (with_maritacaOptions opts
    (mkOptions (ChatMode m) (MaxTokens m) (DoSample m) (Temperature m) (TopP m)
       (RepetitionPenalty m) (StoppingTokens m) (Stream m)
       tokensPerMessage (Token m))).

(** WithToken Set the token to use. *)
Definition WithToken (token : string) : Option := fun opts =>
  let m := maritacaOptions opts in
  Returned (with_maritacaOptions opts
    (mkOptions (ChatMode m) (MaxTokens m) (DoSample m) (Temperature m) (TopP m)
       (RepetitionPenalty m) (StoppingTokens m) (Stream m)
       (NumTokensPerMessage m) token)).

(** Two modifiers called one after the other on the same struct; nothing
    runs after [log.Fatal]. *)
Definition andThen (a b : Option) : Option := fun opts =>
  match a opts with
  | Returned opts' => b opts'
  | Fatal err opts' => Fatal err opts'
  end.

(** *** The fields of the configuration, and what they hold *)

(** The sixteen places a modifier can write to: six fields of [options] and
    the ten of [opts.maritacaOptions]. *)
Inductive field : Type :=
| f_maritacaServerURL
| f_httpClient
| f_model
| f_customModelTemplate
| f_system
| f_format
| f_ChatMode
| f_MaxTokens
| f_DoSample
| f_Temperature
| f_TopP
| f_RepetitionPenalty
| f_StoppingTokens
| f_Stream
| f_NumTokensPerMessage
| f_Token.

Definition all_fields : list field :=
  [ f_maritacaServerURL; f_httpClient; f_model; f_customModelTemplate;
    f_system; f_format; f_ChatMode; f_MaxTokens; f_DoSample; f_Temperature;
    f_TopP; f_RepetitionPenalty; f_StoppingTokens; f_Stream;
    f_NumTokensPerMessage; f_Token ].

Definition field_eq_dec (a b : field) : {a = b} + {a <> b}.
Proof. decide equality. Defined.

Definition field_eqb (a b : field) : bool :=
  if field_eq_dec a b then true else false.

(** The content of a field, whatever its Go type. *)
Inductive value : Type :=
| v_url (u : option url.URL)
| v_client (c : http.ClientRef)
| v_string (s : string)
| v_bool (b : bool)
| v_int (n : Z)
| v_float (x : float)
| v_strings (l : list string).

Definition get (f : field) (opts : options) : value :=
  match f with
  | f_maritacaServerURL => v_url (maritacaServerURL opts)
  | f_httpClient => v_client (httpClient opts)
  | f_model => v_string (model opts)
  | f_customModelTemplate => v_string (customModelTemplate opts)
  | f_system => v_string (system opts)
  | f_format => v_string (format opts)
  | f_ChatMode => v_bool (ChatMode (maritacaOptions opts))
  | f_MaxTokens => v_int (MaxTokens (maritacaOptions opts))
  | f_DoSample => v_bool (DoSample (maritacaOptions opts))
  | f_Temperature => v_float (Temperature (maritacaOptions opts))
  | f_TopP => v_float (TopP (maritacaOptions opts))
  | f_RepetitionPenalty => v_float (RepetitionPenalty (maritacaOptions opts))
  | f_StoppingTokens => v_strings (StoppingTokens (maritacaOptions opts))
  | f_Stream => v_bool (Stream (maritacaOptions opts))
  | f_NumTokensPerMessage => v_int (NumTokensPerMessage (maritacaOptions opts))
  | f_Token => v_string (Token (maritacaOptions opts))
  end.

(** *** The catalogue of modifiers *)

(** A call of one of the sixteen exported constructors, with its argument. *)
Inductive call : Type :=
| callWithModel (model : string)
| callWithFormat (format : string)
| callWithSystemPrompt (p : string)
| callWithCustomTemplate (template : string)
| callWithServerURL (rawURL : string)
| callWithHTTPClient (client : http.ClientRef)
| callWithChatMode (chatMode : bool)
| callWithMaxTokens (maxTokens : Z)
| callWithDoSample (doSample : bool)
| callWithTemperature (temperature : float)
| callWithTopP (topP : float)
| callWithRepetitionPenalty (repetitionPenalty : float)
| callWithStoppingTokens (tokens : list string)
| callWithStream (stream : bool)
| callWithTokensPerMessage (tokensPerMessage : Z)
| callWithToken (token : string).

(** The modifier a call returns. *)
Definition modifier (c : call) : Option :=
  match c with
  | callWithModel model => WithModel model
  | callWithFormat format => WithFormat format
  | callWithSystemPrompt p => WithSystemPrompt p
  | callWithCustomTemplate template => WithCustomTemplate template
  | callWithServerURL rawURL => WithServerURL rawURL
  | callWithHTTPClient client => WithHTTPClient client
  | callWithChatMode chatMode => WithChatMode chatMode
  | callWithMaxTokens maxTokens => WithMaxTokens maxTokens
  | callWithDoSample doSample => WithDoSample doSample
  | callWithTemperature temperature => WithTemperature temperature
  | callWithTopP topP => WithTopP topP
  | callWithRepetitionPenalty repetitionPenalty =>
      WithRepetitionPenalty repetitionPenalty
  | callWithStoppingTokens tokens => WithStoppingTokens tokens
  | callWithStream stream => WithStream stream
  | callWithTokensPerMessage tokensPerMessage =>
      WithTokensPerMessage tokensPerMessage
  | callWithToken token => WithToken token
  end.

(** The field on the left of the assignment in the modifier's body. *)
Definition target (c : call) : field :=
  match c with
  | callWithModel _ => f_model
  | callWithFormat _ => f_format
  | callWithSystemPrompt _ => f_system
  | callWithCustomTemplate _ => f_customModelTemplate
  | callWithServerURL _ => f_maritacaServerURL
  | callWithHTTPClient _ => f_httpClient
  | callWithChatMode _ => f_ChatMode
  | callWithMaxTokens _ => f_MaxTokens
  | callWithDoSample _ => f_DoSample
  | callWithTemperature _ => f_Temperature
  | callWithTopP _ => f_TopP
  | callWithRepetitionPenalty _ => f_RepetitionPenalty
  | callWithStoppingTokens _ => f_StoppingTokens
  | callWithStream _ => f_Stream
  | callWithTokensPerMessage _ => f_NumTokensPerMessage
  | callWithToken _ => f_Token
  end.

(** The right-hand side of the assignment in the modifier's body: the
    argument of the call, and for [WithServerURL] what [url.Parse] returns
    for its argument (a location, or nil with an error). *)
Definition assigned (c : call) : value :=
  match c with
  | callWithModel model => v_string model
  | callWithFormat format => v_string format
  | callWithSystemPrompt p => v_string p
  | callWithCustomTemplate template => v_string template
  | callWithServerURL rawURL =>
      v_url (match url.Parse rawURL with
             | url.Ok u => Some u
             | url.Err _ => None
             end)
  | callWithHTTPClient client => v_client client
  | callWithChatMode chatMode => v_bool chatMode
  | callWithMaxTokens maxTokens => v_int maxTokens
  | callWithDoSample doSample => v_bool doSample
  | callWithTemperature temperature => v_float temperature
  | callWithTopP topP => v_float topP
  | callWithRepetitionPenalty repetitionPenalty => v_float repetitionPenalty
  | callWithStoppingTokens tokens => v_strings tokens
  | callWithStream stream => v_bool stream
  | callWithTokensPerMessage tokensPerMessage => v_int tokensPerMessage
  | callWithToken token => v_string token
  end.

Definition isWithServerURL (c : call) : bool :=
  match c with
  | callWithServerURL _ => true
  | _ => false
  end.

(** The last call of [cs] that writes to [f], if there is one. *)
Fixpoint lastTouching (f : field) (cs : list call) : option call :=
  match cs with
  | [] => None
  | c :: cs' =>
      match lastTouching f cs' with
      | Some c' => Some c'
      | None => if field_eqb (target c) f then Some c else None
      end
  end.

(** *** The aggregation step *)

(** Modelled from the spec: the function that builds the configuration (the
    constructor of the client, in another file of the package) is not part of
    the sources at hand. The spec gives the documented defaults chatMode=true,
    doSample=true, temperature=0.7, topP=0.95, repetitionPenalty=1,
    stream=false, tokensPerMessage=4; the fields for which it documents no
    default are at Go's zero value. *)
Definition defaultOptions : options :=
  mk_options None None "" 
    (mkOptions true 0 true 0.7%float 0.95%float 1%float [] false 4 "")
    "" "" "".

(** Modelled from the spec: the aggregation algorithm, "apply each modifier
    strictly in the order supplied, each operating on the same shared value",
    with no rollback and nothing done after the fatal path is taken. *)
Fixpoint applyOptions (mods : list Option) (opts : options) : outcome :=
  match mods with
  | [] => Returned opts
  | opt :: rest =>
      match opt opts with
      | Returned opts' => applyOptions rest opts'
      | Fatal err opts' => Fatal err opts'
      end
  end.

(** Modelled from the spec: "initialize a Configuration with documented
    defaults, then apply each modifier". *)
Definition build (mods : list Option) : outcome :=
  applyOptions mods defaultOptions.

End maritaca.

(* ------------------------------------------------------------------ *)
(** ** Plain server endpoints *)

Module endpoint.

(** Every byte of [s] satisfies [P]. *)
Fixpoint all (P : ascii -> bool) (s : string) : bool :=
  match s with
  | EmptyString => true
  | String c rest => P c && all P rest
  end.

(** No byte of [s] is [d]. *)
Definition lacks (d : ascii) (s : string) : bool :=
  all (fun c => negb (Ascii.eqb c d)) s.

(** The 256 bytes, and a test over all of them. *)
Definition bytes : list ascii := map ascii_of_nat (seq 0 256).

Definition forall_ascii (P : ascii -> bool) : bool := forallb P bytes.

(** A scheme name: a letter, then letters, digits, [+], [-] and [.]. *)
Definition schemeChar (c : ascii) : bool :=
  url.isAlpha c || url.isDigit c || url.oneOf "+-." c.

Definition isSchemeName (s : string) : bool :=
  match s with
  | EmptyString => false
  | String c rest => url.isAlpha c && all schemeChar rest
  end.

(** A host name: letters, digits, dots and hyphens, at least one. *)
Definition hostChar (c : ascii) : bool :=
  url.isAlpha c || url.isDigit c || url.oneOf ".-" c.

Definition isHostName (h : string) : bool :=
  url.nonEmpty h && all hostChar h.

(** An absolute path of unreserved bytes: empty, or a slash followed by
    letters, digits, [-], [.], [_], [~] and slashes. *)
Definition pathChar (c : ascii) : bool :=
  url.isAlpha c || url.isDigit c || url.oneOf "-._~/" c.

Definition isAbsPath (p : string) : bool :=
  match p with
  | EmptyString => true
  | String c rest => Ascii.eqb c "/" && all pathChar rest
  end.

(** The endpoint [scheme://host[:port][/path]]; [port] is empty or a colon
    followed by digits ([url.validOptionalPort]). *)
Definition compose (scheme host port path : string) : string :=
  scheme ++ "://" ++ host ++ port ++ path.

(** The location such an endpoint stands for. *)
Definition location (scheme host port path : string) : url.URL :=
  url.mkURL (strings.ToLower scheme) "" None (host ++ port) path ""
        false false "" "" "".

(** Bytes that [unescape] copies as they are in [mode]. *)
Definition plainIn (mode : url.encoding) (c : ascii) : bool :=
  negb (Ascii.eqb c "%") && negb (Ascii.eqb c "+")
  && negb ((url.encoding_eqb mode url.encodeHost
            || url.encoding_eqb mode url.encodeZone)
           && (N_of_ascii c <? 128)%N && url.shouldEscape c url.encodeHost).

(** Bytes that are no control characters (below 0x20, or 0x7f). *)
Definition notCTL (c : ascii) : bool :=
  negb ((N_of_ascii c <? 32)%N || (N_of_ascii c =? 127)%N).

(** Bytes that the parser and the printer take as they are in a host, in a
    path and in a scheme, and that end none of these pieces. *)
Definition hostSafe (c : ascii) : bool :=
  notCTL c && plainIn url.encodeHost c
  && negb (url.shouldEscape c url.encodeHost)
  && negb (url.oneOf "#?/@[" c).

Definition pathSafe (c : ascii) : bool :=
  notCTL c && plainIn url.encodePath c
  && negb (url.shouldEscape c url.encodePath)
  && negb (url.oneOf "#?" c).

Definition schemeSafe (c : ascii) : bool :=
  notCTL c && negb (url.oneOf "#?" c) && schemeChar (strings.lowerByte c)
  && Ascii.eqb (strings.lowerByte (strings.lowerByte c)) (strings.lowerByte c).

(** Bytes that are neither control characters nor the start of a query or
    of a fragment. *)
Definition opaqueSafe (c : ascii) : bool :=
  notCTL c && negb (url.oneOf "#?" c).

(** A host name that does not start with a letter, such as an IPv4
    address. *)
Definition isNumericHost (h : string) : bool :=
  match h with
  | EmptyString => false
  | String c _ => negb (url.isAlpha c) && all hostChar h
  end.

(** The shape of the locations the parser returns: the scheme is in lower
    case, and a location with an opaque part has a scheme and neither host,
    path nor user. *)
Definition wellShaped (u : url.URL) : Prop :=
  strings.ToLower (url.Scheme u) = url.Scheme u
  /\ (url.Opaque u <> EmptyString ->
      url.Scheme u <> EmptyString /\ url.Host u = EmptyString
      /\ url.Path u = EmptyString /\ url.User u = None).


(** The bytes of a URI (RFC 3986): the unreserved and the reserved
    characters, and the percent sign. A text with any other byte, a space
    say, is not a syntactically valid URL. *)
Definition uriByte (c : ascii) : bool :=
  url.isAlpha c || url.isDigit c
  || url.oneOf "-._~:/?#[]@!$&()*+,;=%" c || Ascii.eqb c url.squote.

Definition onlyURIBytes (s : string) : bool := all uriByte s.

End endpoint.

(* ------------------------------------------------------------------ *)
(** ** Inputs of the scenarios *)

Module scenario.

Import maritaca.
Import maritacaclient.

(** The line feed, a control byte. *)
Definition LF : ascii := ascii_of_N 10.

(** The text "not a url" followed by a line feed. *)
Definition not_a_url_LF : string := "not a url" ++ String LF EmptyString.

(** A sequence of calls in which the model is set twice and streaming
    once, and the configuration it builds. *)
Definition sample_calls : list call :=
  [ callWithModel "sabia-2-small"; callWithStream true;
    callWithModel "sabia-2-medium" ].

Definition sample_built : options :=
  mk_options None None "sabia-2-medium"
    (mkOptions true 0 true 0.7%float 0.95%float 1%float [] true 4 "")
    "" "" "".

End scenario.

(* ------------------------------------------------------------------ *)
(** * Properties of the modifiers *)

Import maritaca.
Import maritacaclient.
Import scenario.

Arguments url.Parse : simpl never.

(** ** Shared lemmas *)

(** A configuration is what its sixteen fields hold. *)
Lemma get_ext (a b : options) :
  (forall f, get f a = get f b) -> a = b.
Proof.
  intros H.
  destruct a as [u1 h1 m1 [c1 x1 d1 t1 p1 r1 s1 st1 n1 k1] ct1 sy1 fo1].
  destruct b as [u2 h2 m2 [c2 x2 d2 t2 p2 r2 s2 st2 n2 k2] ct2 sy2 fo2].
  pose proof (H f_maritacaServerURL) as E1.
  pose proof (H f_httpClient) as E2.
  pose proof (H f_model) as E3.
  pose proof (H f_customModelTemplate) as E4.
  pose proof (H f_system) as E5.
  pose proof (H f_format) as E6.
  pose proof (H f_ChatMode) as E7.
  pose proof (H f_MaxTokens) as E8.
  pose proof (H f_DoSample) as E9.
  pose proof (H f_Temperature) as E10.
  pose proof (H f_TopP) as E11.
  pose proof (H f_RepetitionPenalty) as E12.
  pose proof (H f_StoppingTokens) as E13.
  pose proof (H f_Stream) as E14.
  pose proof (H f_NumTokensPerMessage) as E15.
  pose proof (H f_Token) as E16.
  cbn in *. congruence.
Qed.

(** A modifier leaves the fields it is not about as they were, on the fatal
    path too. *)
Lemma modifier_other_field (c : call) (opts : options) (f : field) :
  f <> target c -> get f (final (modifier c opts)) = get f opts.
Proof.
  intros Hf.
  destruct c; cbn [modifier target] in *;
    try (destruct f; cbn; (reflexivity || congruence)).
  unfold WithServerURL.
  destruct (url.Parse rawURL); destruct f; cbn; (reflexivity || congruence).
Qed.

(** What a modifier writes to its field does not depend on the struct it is
    applied to. *)
Lemma modifier_own_field (c : call) (o1 o2 : options) :
  get (target c) (final (modifier c o1)) = get (target c) (final (modifier c o2)).
Proof.
  destruct c; cbn [modifier target]; try reflexivity.
  unfold WithServerURL. destruct (url.Parse rawURL); reflexivity.
Qed.

(** Only [WithServerURL] can end the process. *)
Lemma modifier_returns (c : call) (opts : options) :
  isWithServerURL c = false ->
  modifier c opts = Returned (final (modifier c opts)).
Proof.
  destruct c; cbn; intros H; (reflexivity || discriminate).
Qed.

(** [WithServerURL] follows what [url.Parse] returns. *)
Lemma WithServerURL_Ok (rawURL : string) (u : url.URL) (opts : options) :
  url.Parse rawURL = url.Ok u ->
  WithServerURL rawURL opts =
  Returned (mk_options (Some u) (httpClient opts) (model opts)
              (maritacaOptions opts) (customModelTemplate opts)
              (system opts) (format opts)).
Proof. intros E. unfold WithServerURL. rewrite E. reflexivity. Qed.

Lemma WithServerURL_Err (rawURL : string) (err : url.error) (opts : options) :
  url.Parse rawURL = url.Err err ->
  WithServerURL rawURL opts =
  Fatal err (mk_options None (httpClient opts) (model opts)
               (maritacaOptions opts) (customModelTemplate opts)
               (system opts) (format opts)).
Proof. intros E. unfold WithServerURL. rewrite E. reflexivity. Qed.

(** The aggregation over calls, from any starting struct: each field holds
    what the last call about it wrote, or what it held at the start. *)
Lemma applyOptions_last (cs : list call) :
  forall (opts opts' : options),
    applyOptions (map modifier cs) opts = Returned opts' ->
    forall f,
      match lastTouching f cs with
      | Some c => forall o0, get f opts' = get f (final (modifier c o0))
      | None => get f opts' = get f opts
      end.
Proof.
  induction cs as [| c cs IH]; intros opts opts' Hrun f.
  - cbn in Hrun. injection Hrun as <-. reflexivity.
  - cbn [map applyOptions] in Hrun.
    destruct (modifier c opts) as [o1 | e o1] eqn:Hc; [| discriminate].
    specialize (IH o1 opts' Hrun f).
    cbn [lastTouching].
    destruct (lastTouching f cs) as [c' |]; [exact IH |].
    unfold field_eqb. destruct (field_eq_dec (target c) f) as [<- | Hne].
    + intros o0. rewrite IH.
      replace o1 with (final (modifier c opts)) by (rewrite Hc; reflexivity).
      apply modifier_own_field.
    + rewrite IH.
      replace o1 with (final (modifier c opts)) by (rewrite Hc; reflexivity).
      apply modifier_other_field. congruence.
Qed.

(** What a modifier leaves in its field is the value of its call: the
    argument, or the location parsed from it. *)
Lemma modifier_assigns (c : call) (opts : options) :
  get (target c) (final (modifier c opts)) = assigned c.
Proof.
  destruct c; cbn [modifier target assigned]; try reflexivity.
  unfold WithServerURL. destruct (url.Parse rawURL); reflexivity.
Qed.

(** The last call about a field is a call of the sequence, about that
    field. *)
Lemma lastTouching_target (f : field) (cs : list call) (c : call) :
  lastTouching f cs = Some c -> target c = f /\ In c cs.
Proof.
  induction cs as [| c0 cs IH]; cbn [lastTouching]; [discriminate |].
  destruct (lastTouching f cs) as [c' |].
  - intros E. injection E as ->. destruct (IH eq_refl) as [H1 H2].
    split; [exact H1 | right; exact H2].
  - unfold field_eqb. destruct (field_eq_dec (target c0) f) as [E |];
      [| discriminate].
    intros H. injection H as <-. split; [exact E | left; reflexivity].
Qed.

(** When the aggregation returns, the text of every [WithServerURL] call of
    the sequence was accepted by the parser. *)
Lemma applyOptions_parsed (cs : list call) :
  forall (opts opts' : options),
    applyOptions (map modifier cs) opts = Returned opts' ->
    forall rawURL, In (callWithServerURL rawURL) cs ->
                   exists u, url.Parse rawURL = url.Ok u.
Proof.
  induction cs as [| c cs IH]; intros opts opts' Hrun rawURL Hin.
  - destruct Hin.
  - cbn [map applyOptions] in Hrun.
    destruct (modifier c opts) as [o1 | e o1] eqn:Hc; [| discriminate].
    destruct Hin as [-> | Hin]; [| exact (IH o1 opts' Hrun rawURL Hin)].
    cbn [modifier] in Hc. unfold WithServerURL in Hc.
    destruct (url.Parse rawURL) as [u | e]; [| discriminate].
    exists u. reflexivity.
Qed.

(** ** The builder: defaults and last write wins *)

(** C3. Applying zero modifiers to a freshly built configuration returns the
    default configuration itself, in which chatMode=true, doSample=true,
    temperature=0.7, topP=0.95, repetitionPenalty=1, stream=false and
    tokensPerMessage=4. *)
Theorem build_no_modifier :
  build [] = Returned defaultOptions
  /\ ChatMode (maritacaOptions defaultOptions) = true
  /\ DoSample (maritacaOptions defaultOptions) = true
  /\ Temperature (maritacaOptions defaultOptions) = 0.7%float
  /\ TopP (maritacaOptions defaultOptions) = 0.95%float
  /\ RepetitionPenalty (maritacaOptions defaultOptions) = 1%float
  /\ Stream (maritacaOptions defaultOptions) = false
  /\ NumTokensPerMessage (maritacaOptions defaultOptions) = 4%Z.
Proof. repeat split. Qed.

(** C1. For every sequence of modifiers applied in order to the default
    configuration, if the build returns a configuration then each of its
    fields holds the value set by the last modifier of the sequence about
    that field, that is the argument that call was given (for the server
    endpoint, the location parsed from the text it was given, which the
    parser accepted), and a field that no modifier of the sequence is about
    holds its default; the documented defaults are chatMode=true,
    doSample=true, temperature=0.7, topP=0.95, repetitionPenalty=1,
    stream=false, tokensPerMessage=4. *)
Theorem build_last_write_wins (cs : list call) (opts' : options)
  (Hbuild : build (map modifier cs) = Returned opts') :
  (forall f,
     match lastTouching f cs with
     | Some c => target c = f /\ get f opts' = assigned c
     | None => get f opts' = get f defaultOptions
     end)
  /\ (forall rawURL,
        lastTouching f_maritacaServerURL cs = Some (callWithServerURL rawURL) ->
        exists u, url.Parse rawURL = url.Ok u
                  /\ maritacaServerURL opts' = Some u)
  /\ get f_ChatMode defaultOptions = v_bool true
  /\ get f_DoSample defaultOptions = v_bool true
  /\ get f_Temperature defaultOptions = v_float 0.7%float
  /\ get f_TopP defaultOptions = v_float 0.95%float
  /\ get f_RepetitionPenalty defaultOptions = v_float 1%float
  /\ get f_Stream defaultOptions = v_bool false
  /\ get f_NumTokensPerMessage defaultOptions = v_int 4.
Proof.
  assert (Hlast : forall f,
     match lastTouching f cs with
     | Some c => target c = f /\ get f opts' = assigned c
     | None => get f opts' = get f defaultOptions
     end).
  { intros f.
    pose proof (applyOptions_last cs defaultOptions opts' Hbuild f) as H.
    destruct (lastTouching f cs) as [c |] eqn:E; [| exact H].
    destruct (lastTouching_target f cs c E) as [Ht _].
    split; [exact Ht |].
    rewrite (H defaultOptions), <- Ht. apply modifier_assigns. }
  split; [exact Hlast |]. split; [| repeat split].
  intros rawURL E.
  destruct (lastTouching_target _ cs _ E) as [_ Hin].
  destruct (applyOptions_parsed cs defaultOptions opts' Hbuild rawURL Hin)
    as [u Hu].
  exists u. split; [exact Hu |].
  pose proof (Hlast f_maritacaServerURL) as H. rewrite E in H.
  destruct H as [_ H]. cbn [get assigned] in H. rewrite Hu in H.
  injection H as H. exact H.
Qed.

Lemma build_last_write_wins_witness :
  build (map modifier sample_calls) = Returned sample_built
  /\ get f_model sample_built = v_string "sabia-2-medium"
  /\ get f_Stream sample_built = v_bool true
  /\ get f_TopP sample_built = v_float 0.95%float.
Proof.
  split; [reflexivity |].
  pose proof (build_last_write_wins sample_calls sample_built eq_refl) as [H _].
  split; [| split].
  - exact (proj2 (H f_model)).
  - exact (proj2 (H f_Stream)).
  - exact (H f_TopP).
Defined.

(** C7. Building with the modifiers set model name "sabia-2-medium", set max
    tokens 256, set temperature 0.2, set streaming true, set
    tokens-per-message 8, in this order, returns a configuration with
    model="sabia-2-medium", MaxTokens=256, Temperature=0.2, Stream=true,
    NumTokensPerMessage=8, and every other field as in the default
    configuration. *)
Theorem build_sabia_scenario :
  exists opts',
    build [ WithModel "sabia-2-medium"; WithMaxTokens 256;
            WithTemperature 0.2%float; WithStream true;
            WithTokensPerMessage 8 ] = Returned opts'
    /\ model opts' = "sabia-2-medium"
    /\ MaxTokens (maritacaOptions opts') = 256%Z
    /\ Temperature (maritacaOptions opts') = 0.2%float
    /\ Stream (maritacaOptions opts') = true
    /\ NumTokensPerMessage (maritacaOptions opts') = 8%Z
    /\ Forall (fun f => get f opts' = get f defaultOptions)
         [ f_maritacaServerURL; f_httpClient; f_customModelTemplate;
           f_system; f_format; f_ChatMode; f_DoSample; f_TopP;
           f_RepetitionPenalty; f_StoppingTokens; f_Token ].
Proof.
  eexists. split; [reflexivity |].
  repeat split; repeat constructor.
Qed.

(** ** Each modifier on its own *)

(** C5. Every modifier of the catalogue is about one field: applied to any
    configuration it leaves every other field, of the configuration and of
    its nested generation parameters, as it was; and the only thing a
    modifier does besides is the fatal exit, which only the server-endpoint
    modifier can take. *)
Theorem modifier_one_concern (c : call) (opts : options) :
  (forall f, f <> target c -> get f (final (modifier c opts)) = get f opts)
  /\ (forall err opts', modifier c opts = Fatal err opts' ->
        isWithServerURL c = true).
Proof.
  split.
  - intros f Hf. now apply modifier_other_field.
  - intros err opts' H.
    destruct (isWithServerURL c) eqn:E; [reflexivity |].
    rewrite (modifier_returns c opts E) in H. discriminate.
Qed.

Lemma modifier_one_concern_witness :
  get f_model (final (modifier (callWithTemperature 0.2%float) defaultOptions))
  = get f_model defaultOptions
  /\ get f_TopP (final (modifier (callWithTemperature 0.2%float) defaultOptions))
     = get f_TopP defaultOptions.
Proof.
  pose proof (modifier_one_concern (callWithTemperature 0.2%float) defaultOptions)
    as [H _].
  split; apply H; discriminate.
Defined.

(** C10. Every modifier but the server-endpoint one is idempotent: applying
    it twice in succession with the same value gives the configuration that
    applying it once gives. *)
Theorem modifier_idempotent (c : call) (opts : options)
  (Hc : isWithServerURL c = false) :
  andThen (modifier c) (modifier c) opts = modifier c opts.
Proof.
  destruct c; try discriminate; reflexivity.
Qed.

Lemma modifier_idempotent_witness :
  isWithServerURL (callWithStoppingTokens ["</s>"]) = false
  /\ andThen (modifier (callWithStoppingTokens ["</s>"]))
             (modifier (callWithStoppingTokens ["</s>"])) defaultOptions
     = modifier (callWithStoppingTokens ["</s>"]) defaultOptions.
Proof.
  split; [reflexivity |].
  apply (modifier_idempotent (callWithStoppingTokens ["</s>"]) defaultOptions).
  reflexivity.
Defined.

(** C6. On every configuration, setting the stopping tokens to the empty
    sequence and then to a non-empty one leaves exactly the non-empty
    sequence in the configuration, as setting it once does: the list is
    replaced, nothing is accumulated. *)
Theorem stopping_tokens_replaced (opts : options) (tokens : list string)
  (Hne : tokens <> []) :
  exists opts',
    andThen (WithStoppingTokens []) (WithStoppingTokens tokens) opts
    = Returned opts'
    /\ StoppingTokens (maritacaOptions opts') = tokens
    /\ WithStoppingTokens tokens opts = Returned opts'
    /\ forall f, f <> f_StoppingTokens -> get f opts' = get f opts.
Proof.
  eexists. split; [reflexivity |]. split; [reflexivity |].
  split; [reflexivity |].
  intros f Hf. destruct f; (reflexivity || congruence).
Qed.

Lemma stopping_tokens_replaced_witness :
  ["</s>"; "###"] <> []
  /\ exists opts',
       andThen (WithStoppingTokens []) (WithStoppingTokens ["</s>"; "###"])
               defaultOptions = Returned opts'
       /\ StoppingTokens (maritacaOptions opts') = ["</s>"; "###"].
Proof.
  split; [discriminate |].
  destruct (stopping_tokens_replaced defaultOptions ["</s>"; "###"])
    as [o [H1 [H2 _]]]; [discriminate |].
  exists o. split; assumption.
Defined.

(** ** The server endpoint *)

(** C8. Setting the server endpoint to "http://localhost:8080" does not take
    the fatal path: the modifier returns, and the location it has stored has
    host "localhost:8080" and scheme "http". *)
Theorem server_url_localhost (opts : options) :
  exists opts' u,
    WithServerURL "http://localhost:8080" opts = Returned opts'
    /\ maritacaServerURL opts' = Some u
    /\ url.Host u = "localhost:8080"
    /\ url.Scheme u = "http".
Proof.
  eexists. eexists. split.
  - apply WithServerURL_Ok. vm_compute. reflexivity.
  - repeat split.
Qed.

(** C9. The server-endpoint modifier takes the fatal path exactly when
    [url.Parse] returns an error; when the parser returns a location the
    modifier returns and the stored endpoint is that location, whatever was
    stored before. The parser accepts the empty string and the text
    "not a url" (no control character), so on these the modifier succeeds:
    it stores the empty location for the first, and a location with the path
    "not a url" and neither scheme nor host for the second. *)
Theorem server_url_fatal_iff_parse_error :
  (forall rawURL opts,
      (exists err opts', WithServerURL rawURL opts = Fatal err opts')
      <-> (exists err, url.Parse rawURL = url.Err err))
  /\ (forall rawURL opts u,
        url.Parse rawURL = url.Ok u ->
        exists opts',
          WithServerURL rawURL opts = Returned opts'
          /\ maritacaServerURL opts' = Some u)
  /\ (forall opts,
        exists opts',
          WithServerURL "" opts = Returned opts'
          /\ maritacaServerURL opts' = Some url.zeroURL)
  /\ (forall opts,
        exists opts' u,
          WithServerURL "not a url" opts = Returned opts'
          /\ maritacaServerURL opts' = Some u
          /\ url.Parse "not a url" = url.Ok u
          /\ url.Path u = "not a url"
          /\ url.Scheme u = ""
          /\ url.Host u = "").
Proof.
  split; [| split; [| split]].
  - intros rawURL opts. split.
    + intros [err [o' H]]. unfold WithServerURL in H.
      destruct (url.Parse rawURL) as [u | e]; [discriminate |].
      exists e. reflexivity.
    + intros [err E]. eexists. eexists. apply (WithServerURL_Err _ _ _ E).
  - intros rawURL opts u E. eexists. split;
      [apply (WithServerURL_Ok _ _ _ E) | reflexivity].
  - intros opts. eexists. split.
    + apply WithServerURL_Ok. vm_compute. reflexivity.
    + reflexivity.
  - intros opts. eexists. eexists. split.
    + apply WithServerURL_Ok. vm_compute. reflexivity.
    + repeat split.
Qed.

(* ------------------------------------------------------------------ *)
(** * Further properties of the modifiers *)

(** ** How two modifiers compose *)

(** X1. Two modifiers about different fields commute: if calling the first
    and then the second returns a configuration, calling them in the other
    order returns the same configuration. *)
Theorem modifiers_commute (a b : call) (opts opts' : options)
  (Hfields : target a <> target b)
  (Hrun : andThen (modifier a) (modifier b) opts = Returned opts') :
  andThen (modifier b) (modifier a) opts = Returned opts'.
Proof.
  destruct a, b; try (exfalso; apply Hfields; reflexivity);
    cbn in Hrun |- *; unfold andThen, WithServerURL in Hrun |- *;
    cbn in Hrun |- *;
    try (destruct (url.Parse rawURL); cbn in Hrun |- *);
    first [ discriminate Hrun | exact Hrun ].
Qed.

Lemma modifiers_commute_witness :
  target (callWithServerURL "http://localhost:8080") <> target (callWithStream true)
  /\ andThen (modifier (callWithStream true))
             (modifier (callWithServerURL "http://localhost:8080")) defaultOptions
     = andThen (modifier (callWithServerURL "http://localhost:8080"))
               (modifier (callWithStream true)) defaultOptions.
Proof.
  split; [discriminate |].
  apply (modifiers_commute (callWithServerURL "http://localhost:8080")
           (callWithStream true) defaultOptions).
  - discriminate.
  - vm_compute. reflexivity.
Defined.

(** X2. A modifier cancels an earlier modifier about the same field: when
    the first call returns, calling a second modifier with the same target
    after it gives exactly what calling the second alone gives, whether the
    second returns or ends the process. *)
Theorem modifier_overrides (a b : call) (opts opts1 : options)
  (Hfield : target a = target b)
  (Hfirst : modifier a opts = Returned opts1) :
  andThen (modifier a) (modifier b) opts = modifier b opts.
Proof.
  unfold andThen. rewrite Hfirst.
  destruct a, b; try discriminate Hfield;
    cbn in Hfirst |- *; unfold WithServerURL in Hfirst |- *;
    try (destruct (url.Parse rawURL); [| discriminate Hfirst]);
    injection Hfirst as <-; reflexivity.
Qed.

Lemma modifier_overrides_witness :
  target (callWithServerURL "http://localhost:8080") = target (callWithServerURL ":")
  /\ modifier (callWithServerURL "http://localhost:8080") defaultOptions
     = Returned (final (modifier (callWithServerURL "http://localhost:8080")
                          defaultOptions))
  /\ andThen (modifier (callWithServerURL "http://localhost:8080"))
             (modifier (callWithServerURL ":")) defaultOptions
     = modifier (callWithServerURL ":") defaultOptions.
Proof.
  split; [reflexivity |]. split; [vm_compute; reflexivity |].
  apply (modifier_overrides (callWithServerURL "http://localhost:8080")
           (callWithServerURL ":") defaultOptions
           (final (modifier (callWithServerURL "http://localhost:8080")
                     defaultOptions))).
  - reflexivity.
  - vm_compute. reflexivity.
Defined.

(* ------------------------------------------------------------------ *)
(** * The server endpoint, by the shape of the text *)

(** ** Facts on byte strings *)

Section StringFacts.

Import endpoint.

Lemma forall_ascii_spec (P : ascii -> bool) :
  forall_ascii P = true -> forall c, P c = true.
Proof.
  unfold forall_ascii, bytes. rewrite forallb_forall. intros H c. apply H.
  rewrite <- (ascii_nat_embedding c). apply in_map. apply in_seq.
  pose proof (nat_ascii_bounded c). lia.
Qed.

Lemma append_nil_r (s : string) : s ++ EmptyString = s.
Proof. induction s as [| c s IH]; cbn; [reflexivity | now rewrite IH]. Qed.

Lemma append_assoc (a b c : string) : (a ++ b) ++ c = a ++ b ++ c.
Proof. induction a as [| x a IH]; cbn; [reflexivity | now rewrite IH]. Qed.

Lemma all_app (P : ascii -> bool) (a b : string) :
  all P (a ++ b) = all P a && all P b.
Proof.
  induction a as [| c a IH]; cbn; [reflexivity |].
  rewrite IH. apply andb_assoc.
Qed.

Lemma all_impl (P Q : ascii -> bool) (s : string) :
  (forall c, P c = true -> Q c = true) -> all P s = true -> all Q s = true.
Proof.
  intros HPQ. induction s as [| c s IH]; cbn; [reflexivity |].
  intros H. apply andb_prop in H as [Hc Hs].
  rewrite (HPQ c Hc), (IH Hs). reflexivity.
Qed.

Lemma HasPrefix_byte (c d : ascii) (s : string) :
  strings.HasPrefix (String c s) (String d EmptyString) = Ascii.eqb c d.
Proof.
  unfold strings.HasPrefix. cbn.
  destruct (ascii_dec d c) as [-> | Hne].
  - rewrite Ascii.eqb_refl. destruct s; reflexivity.
  - symmetry. apply Ascii.eqb_neq. congruence.
Qed.

Lemma IndexFrom_skip (d : ascii) (a b : string) (i : nat) :
  lacks d a = true ->
  strings.IndexFrom i (a ++ b) (String d EmptyString)
  = strings.IndexFrom (i + String.length a) b (String d EmptyString).
Proof.
  revert i. induction a as [| c a IH]; intros i Ha; cbn [append String.length].
  - rewrite Nat.add_0_r. reflexivity.
  - cbn in Ha. apply andb_prop in Ha as [Hc Ha].
    cbn [strings.IndexFrom]. rewrite HasPrefix_byte.
    apply negb_true_iff in Hc. rewrite Hc.
    rewrite (IH (S i) Ha). f_equal. lia.
Qed.

Lemma IndexFrom_empty (d : ascii) (i : nat) :
  strings.IndexFrom i EmptyString (String d EmptyString) = None.
Proof. reflexivity. Qed.

Lemma IndexFrom_lacks (d : ascii) (s : string) (i : nat) :
  lacks d s = true -> strings.IndexFrom i s (String d EmptyString) = None.
Proof.
  intros H. revert i. induction s as [| c s IH]; intros i; [reflexivity |].
  cbn in H. apply andb_prop in H as [Hc Hs].
  cbn [strings.IndexFrom]. rewrite HasPrefix_byte.
  apply negb_true_iff in Hc. rewrite Hc. apply IH, Hs.
Qed.

Lemma IndexFrom_hit (d : ascii) (s : string) (i : nat) :
  strings.IndexFrom i (String d s) (String d EmptyString) = Some i.
Proof. cbn [strings.IndexFrom]. rewrite HasPrefix_byte, Ascii.eqb_refl. reflexivity. Qed.

Lemma IndexFrom_ge (sep s : string) (i j : nat) :
  strings.IndexFrom i s sep = Some j -> i <= j.
Proof.
  revert i. induction s as [| c s IH]; intros i; cbn [strings.IndexFrom].
  - destruct (strings.HasPrefix _ _); [| discriminate].
    intros [= <-]. lia.
  - destruct (strings.HasPrefix _ _).
    + intros [= <-]. lia.
    + intros H. apply IH in H. lia.
Qed.

Lemma upto_app (a b : string) : strings.upto (String.length a) (a ++ b) = a.
Proof. induction a as [| c a IH]; cbn; [destruct b; reflexivity | now rewrite IH]. Qed.

Lemma from_app (a b : string) : strings.from (String.length a) (a ++ b) = b.
Proof. induction a as [| c a IH]; cbn; [reflexivity | exact IH]. Qed.

Lemma from_app_S (a b : string) (d : ascii) :
  strings.from (S (String.length a)) (a ++ String d b) = b.
Proof. induction a as [| c a IH]; cbn; [reflexivity | exact IH]. Qed.

Lemma upto_app_more (a b : string) (k : nat) :
  strings.upto (String.length a + k) (a ++ b) = a ++ strings.upto k b.
Proof. induction a as [| c a IH]; cbn; [reflexivity | now rewrite IH]. Qed.

Lemma lacks_from (d : ascii) (s : string) (k : nat) :
  lacks d s = true -> lacks d (strings.from k s) = true.
Proof.
  revert s. induction k as [| k IH]; intros s H; [exact H |].
  destruct s as [| c s]; [reflexivity |].
  cbn in H. apply andb_prop in H as [_ Hs]. cbn. apply IH, Hs.
Qed.

Lemma LastIndexFrom_lacks (d : ascii) (s : string) (i : nat) :
  lacks d s = true -> strings.LastIndexFrom i s (String d EmptyString) = None.
Proof.
  revert i. induction s as [| c s IH]; intros i H; [reflexivity |].
  cbn in H. apply andb_prop in H as [Hc Hs].
  cbn [strings.LastIndexFrom]. rewrite (IH (S i) Hs), HasPrefix_byte.
  apply negb_true_iff in Hc. rewrite Hc. reflexivity.
Qed.

Lemma LastIndexFrom_last (d : ascii) (a b : string) (i : nat) :
  lacks d b = true ->
  strings.LastIndexFrom i (a ++ String d b) (String d EmptyString)
  = Some (i + String.length a).
Proof.
  intros Hb. revert i. induction a as [| c a IH]; intros i; cbn [append String.length].
  - cbn [strings.LastIndexFrom]. rewrite (LastIndexFrom_lacks d b (S i) Hb).
    rewrite HasPrefix_byte, Ascii.eqb_refl. f_equal. lia.
  - cbn [strings.LastIndexFrom]. rewrite (IH (S i)). f_equal. lia.
Qed.


Lemma all_bytes (P Q : ascii -> bool) (s : string) :
  forall_ascii (fun c => implb (P c) (Q c)) = true ->
  all P s = true -> all Q s = true.
Proof.
  intros H. apply all_impl. intros c Hc.
  pose proof (forall_ascii_spec _ H c) as E. cbn beta in E.
  rewrite Hc in E. exact E.
Qed.

Lemma Index_lacks (d : ascii) (s : string) :
  lacks d s = true -> strings.Index s (String d EmptyString) = None.
Proof. apply IndexFrom_lacks. Qed.

Lemma Cut_lacks (d : ascii) (s : string) :
  lacks d s = true ->
  strings.Cut s (String d EmptyString) = (s, EmptyString, false).
Proof. intros H. unfold strings.Cut. rewrite (Index_lacks d s H). reflexivity. Qed.

Lemma HasSuffix_lacks (d : ascii) (s : string) :
  lacks d s = true -> strings.HasSuffix s (String d EmptyString) = false.
Proof.
  intros H. unfold strings.HasSuffix. apply andb_false_intro2.
  apply String.eqb_neq. intros E.
  pose proof (lacks_from d s
                (String.length s - String.length (String d EmptyString)) H) as L.
  rewrite E in L. cbn in L. rewrite Ascii.eqb_refl in L. discriminate.
Qed.

End StringFacts.

(** ** Facts on the pieces of [url.Parse] *)

Section ParseFacts.

Import endpoint.

Lemma unescapeScan_plain (mode : url.encoding) (s : string) (n : nat) (hp : bool) :
  all (plainIn mode) s = true ->
  url.unescapeScan s mode n hp = url.Ok (n, hp).
Proof.
  revert n hp. induction s as [| c s IH]; intros n hp H; [reflexivity |].
  cbn [all] in H. apply andb_prop in H as [Hc Hs].
  unfold plainIn in Hc.
  apply andb_prop in Hc as [Hc H3]. apply andb_prop in Hc as [H1 H2].
  apply negb_true_iff in H1, H2, H3.
  cbn [url.unescapeScan]. rewrite H1, H2, H3. apply IH, Hs.
Qed.

Lemma unescape_plain (mode : url.encoding) (s : string) :
  all (plainIn mode) s = true -> url.unescape s mode = url.Ok s.
Proof.
  intros H. unfold url.unescape. rewrite (unescapeScan_plain mode s 0 false H).
  reflexivity.
Qed.

Lemma escapeCount_plain (mode : url.encoding) (s : string) :
  all (fun c => negb (url.shouldEscape c mode)) s = true ->
  url.escapeCount s mode = (0, 0).
Proof.
  induction s as [| c s IH]; intros H; [reflexivity |].
  cbn [all] in H. apply andb_prop in H as [Hc Hs]. apply negb_true_iff in Hc.
  cbn [url.escapeCount]. rewrite (IH Hs), Hc. reflexivity.
Qed.

Lemma escape_plain (mode : url.encoding) (s : string) :
  all (fun c => negb (url.shouldEscape c mode)) s = true ->
  url.escape s mode = s.
Proof.
  intros H. unfold url.escape. rewrite (escapeCount_plain mode s H). reflexivity.
Qed.

Lemma stringContainsCTLByte_none (s : string) :
  all notCTL s = true -> url.stringContainsCTLByte s = false.
Proof.
  induction s as [| c s IH]; intros H; [reflexivity |].
  cbn [all] in H. apply andb_prop in H as [Hc Hs].
  unfold notCTL in Hc. apply negb_true_iff in Hc.
  cbn [url.stringContainsCTLByte]. rewrite Hc. apply IH, Hs.
Qed.

Lemma stringContainsCTLByte_some (pre post : string) (c : ascii) :
  notCTL c = false -> url.stringContainsCTLByte (pre ++ String c post) = true.
Proof.
  intros Hc. unfold notCTL in Hc. apply negb_false_iff in Hc.
  induction pre as [| d pre IH]; cbn [append url.stringContainsCTLByte].
  - rewrite Hc. reflexivity.
  - rewrite IH.
    destruct ((N_of_ascii d <? 32)%N || (N_of_ascii d =? 127)%N); reflexivity.
Qed.

Lemma getSchemeFrom_name (raw s rest : string) (i : nat) :
  0 < i -> all schemeChar s = true ->
  url.getSchemeFrom raw i (s ++ String ":" rest)
  = url.Ok (strings.upto (i + String.length s) raw,
            strings.from (S (i + String.length s)) raw).
Proof.
  revert i. induction s as [| c s IH]; intros i Hi H.
  - cbn [append String.length url.getSchemeFrom].
    replace (url.isAlpha ":") with false by reflexivity.
    replace (url.isDigit ":" || url.oneOf "+-." ":") with false by reflexivity.
    rewrite Ascii.eqb_refl. destruct i; [lia |]. cbn [Nat.eqb].
    rewrite Nat.add_0_r. reflexivity.
  - cbn [all] in H. apply andb_prop in H as [Hc Hs].
    cbn [append String.length url.getSchemeFrom].
    unfold schemeChar in Hc. rewrite <- orb_assoc in Hc.
    destruct (url.isAlpha c).
    + rewrite (IH (S i)) by first [lia | assumption].
      rewrite Nat.add_succ_r. reflexivity.
    + cbn [orb] in Hc. rewrite Hc. destruct i; [lia |]. cbn [Nat.eqb].
      rewrite (IH (S (S i))) by first [lia | assumption].
      rewrite Nat.add_succ_r. reflexivity.
Qed.

Lemma getScheme_name (s rest : string) :
  isSchemeName s = true ->
  url.getScheme (s ++ String ":" rest) = url.Ok (s, rest).
Proof.
  destruct s as [| c s]; [discriminate |]. cbn [isSchemeName].
  intros H. apply andb_prop in H as [Hc Hs].
  unfold url.getScheme. cbn [append url.getSchemeFrom]. rewrite Hc.
  rewrite (getSchemeFrom_name _ s rest 1) by first [lia | assumption].
  cbn [Nat.add strings.upto].
  change (strings.from (S (S (String.length s))) (String c (s ++ String ":" rest)))
    with (strings.from (S (String.length s)) (s ++ String ":" rest)).
  rewrite upto_app, from_app_S. reflexivity.
Qed.


(** Facts on the bytes of the classes, each checked on the 256 bytes. *)
Lemma hostChar_safe : forall_ascii (fun c => implb (hostChar c) (hostSafe c)) = true.
Proof. vm_compute. reflexivity. Qed.

Lemma portChar_safe :
  forall_ascii (fun c => implb (url.isDigit c || Ascii.eqb c ":")
                           (hostSafe c)) = true.
Proof. vm_compute. reflexivity. Qed.

Lemma pathChar_safe : forall_ascii (fun c => implb (pathChar c) (pathSafe c)) = true.
Proof. vm_compute. reflexivity. Qed.

Lemma schemeChar_safe :
  forall_ascii (fun c => implb (schemeChar c) (schemeSafe c)) = true.
Proof. vm_compute. reflexivity. Qed.


Lemma allDigits_all (s : string) :
  url.allDigits s = true -> all url.isDigit s = true.
Proof.
  induction s as [| c s IH]; cbn; [reflexivity |].
  destruct (url.isDigit c); [exact IH | discriminate].
Qed.

Lemma port_safe (p : string) :
  url.validOptionalPort p = true -> all hostSafe p = true.
Proof.
  intros H.
  apply (all_bytes (fun c => url.isDigit c || Ascii.eqb c ":") hostSafe p portChar_safe).
  destruct p as [| c p]; [reflexivity |]. cbn in H |- *.
  destruct (Ascii.eqb c ":"); [| discriminate].
  rewrite orb_true_r. cbn [andb].
  apply (all_impl url.isDigit); [| apply allDigits_all, H].
  intros d Hd. rewrite Hd. reflexivity.
Qed.

Lemma absPath_safe (q : string) :
  isAbsPath q = true -> all pathSafe q = true.
Proof.
  intros H. apply (all_bytes pathChar pathSafe q pathChar_safe).
  destruct q as [| c q]; [reflexivity |]. cbn in H |- *.
  apply andb_prop in H as [Hc Hq]. apply Ascii.eqb_eq in Hc. subst c.
  exact Hq.
Qed.

Lemma hostSafe_lacks (d : ascii) (s : string) :
  url.oneOf "#?/@[" d = true -> all hostSafe s = true -> lacks d s = true.
Proof.
  intros Hd. apply all_impl. intros c Hc. unfold hostSafe in Hc.
  apply andb_prop in Hc as [_ Hc]. apply negb_true_iff in Hc.
  apply negb_true_iff, Ascii.eqb_neq. intros ->. congruence.
Qed.

Lemma pathSafe_lacks (d : ascii) (s : string) :
  url.oneOf "#?" d = true -> all pathSafe s = true -> lacks d s = true.
Proof.
  intros Hd. apply all_impl. intros c Hc. unfold pathSafe in Hc.
  apply andb_prop in Hc as [_ Hc]. apply negb_true_iff in Hc.
  apply negb_true_iff, Ascii.eqb_neq. intros ->. congruence.
Qed.

Lemma schemeSafe_lacks (d : ascii) (s : string) :
  url.oneOf "#?" d = true -> all schemeSafe s = true -> lacks d s = true.
Proof.
  intros Hd. apply all_impl. intros c Hc. unfold schemeSafe in Hc.
  apply andb_prop in Hc as [Hc _]. apply andb_prop in Hc as [Hc _].
  apply andb_prop in Hc as [_ Hc]. apply negb_true_iff in Hc.
  apply negb_true_iff, Ascii.eqb_neq. intros ->. congruence.
Qed.

Lemma hostSafe_plain (s : string) :
  all hostSafe s = true ->
  all notCTL s = true /\ all (plainIn url.encodeHost) s = true
  /\ all (fun c => negb (url.shouldEscape c url.encodeHost)) s = true.
Proof.
  intros H. repeat split; revert H; apply all_impl; intros c Hc;
    unfold hostSafe in Hc; apply andb_prop in Hc as [Hc _];
    apply andb_prop in Hc as [Hc H3]; apply andb_prop in Hc as [H1 H2];
    assumption.
Qed.

Lemma pathSafe_plain (s : string) :
  all pathSafe s = true ->
  all notCTL s = true /\ all (plainIn url.encodePath) s = true
  /\ all (fun c => negb (url.shouldEscape c url.encodePath)) s = true.
Proof.
  intros H. repeat split; revert H; apply all_impl; intros c Hc;
    unfold pathSafe in Hc; apply andb_prop in Hc as [Hc _];
    apply andb_prop in Hc as [Hc H3]; apply andb_prop in Hc as [H1 H2];
    assumption.
Qed.

(** The host of a plain endpoint is taken as it is. *)
Lemma parseHost_plain (h p : string) :
  isHostName h = true -> url.validOptionalPort p = true ->
  url.parseHost (h ++ p) = url.Ok (h ++ p).
Proof.
  intros Hh Hp. unfold isHostName in Hh. apply andb_prop in Hh as [Hne Hh].
  assert (Hsafe : all hostSafe (h ++ p) = true).
  { rewrite all_app, (all_bytes hostChar hostSafe h hostChar_safe Hh),
      (port_safe p Hp). reflexivity. }
  destruct (hostSafe_plain _ Hsafe) as [_ [Hplain _]].
  assert (Hcolon : lacks ":" h = true).
  { revert Hh. apply all_bytes. vm_compute. reflexivity. }
  unfold url.parseHost.
  replace (strings.HasPrefix (h ++ p) "[") with false.
  2:{ destruct h as [| c h]; [discriminate |]. cbn [append].
      rewrite HasPrefix_byte. symmetry.
      assert (L : lacks "[" (String c h ++ p) = true)
        by (apply hostSafe_lacks; [reflexivity | exact Hsafe]).
      cbn in L. apply andb_prop in L as [L _].
      apply negb_true_iff in L. exact L. }
  destruct p as [| c ds].
  - rewrite append_nil_r. unfold strings.LastIndex.
    rewrite (LastIndexFrom_lacks ":" h 0 Hcolon).
    rewrite append_nil_r in Hplain. apply unescape_plain, Hplain.
  - cbn [url.validOptionalPort] in Hp.
    destruct (Ascii.eqb c ":") eqn:Ec; [| discriminate].
    apply Ascii.eqb_eq in Ec. subst c.
    assert (Hds : lacks ":" ds = true).
    { apply allDigits_all in Hp. revert Hp. apply all_bytes.
      vm_compute. reflexivity. }
    unfold strings.LastIndex. rewrite (LastIndexFrom_last ":" h ds 0 Hds).
    cbn [Nat.add]. rewrite from_app. cbn [url.validOptionalPort].
    rewrite Ascii.eqb_refl, Hp. cbn [negb].
    apply unescape_plain, Hplain.
Qed.


Lemma setPath_plain (u : url.URL) (q : string) :
  isAbsPath q = true ->
  url.setPath u q
  = url.Ok (url.mkURL (url.Scheme u) (url.Opaque u) (url.User u) (url.Host u)
              q EmptyString (url.OmitHost u) (url.ForceQuery u)
              (url.RawQuery u) (url.Fragment u) (url.RawFragment u)).
Proof.
  intros Hq. destruct (pathSafe_plain q (absPath_safe q Hq)) as [_ [H1 H2]].
  unfold url.setPath. rewrite (unescape_plain _ q H1). cbn [url.bind].
  rewrite (escape_plain _ q H2), String.eqb_refl. reflexivity.
Qed.

Lemma split_authority (hp q : string) :
  lacks "/" hp = true -> isAbsPath q = true ->
  match strings.Index (hp ++ q) "/" with
  | Some i => (strings.upto i (hp ++ q), strings.from i (hp ++ q))
  | None => (hp ++ q, EmptyString)
  end = (hp, q).
Proof.
  intros Hhp Hq. unfold strings.Index. rewrite (IndexFrom_skip "/" hp q 0 Hhp).
  destruct q as [| c q].
  - cbn [strings.IndexFrom strings.HasPrefix prefix]. rewrite append_nil_r.
    reflexivity.
  - cbn [isAbsPath] in Hq. apply andb_prop in Hq as [Hc _].
    apply Ascii.eqb_eq in Hc. subst c.
    rewrite IndexFrom_hit. cbn [Nat.add]. rewrite upto_app, from_app.
    reflexivity.
Qed.

Lemma ToLower_nonEmpty (s : string) :
  isSchemeName s = true -> String.eqb (strings.ToLower s) EmptyString = false.
Proof. destruct s; [discriminate | reflexivity]. Qed.

(** [url.Parse] on a plain endpoint. *)
Lemma Parse_endpoint (s h p q : string) :
  isSchemeName s = true -> isHostName h = true ->
  url.validOptionalPort p = true -> isAbsPath q = true ->
  url.Parse (compose s h p q) = url.Ok (location s h p q).
Proof.
  intros Hs Hh Hp Hq.
  assert (Hs' : all schemeSafe s = true).
  { apply (all_bytes schemeChar schemeSafe s schemeChar_safe).
    destruct s as [| c s]; [discriminate |]. cbn in Hs |- *.
    apply andb_prop in Hs as [Hc Hs]. unfold schemeChar at 1.
    rewrite Hc, Hs. reflexivity. }
  assert (Hhp : all hostSafe (h ++ p) = true).
  { unfold isHostName in Hh. apply andb_prop in Hh as [_ Hh'].
    rewrite all_app, (all_bytes hostChar hostSafe h hostChar_safe Hh'),
      (port_safe p Hp). reflexivity. }
  pose proof (absPath_safe q Hq) as Hq'.
  destruct (hostSafe_plain _ Hhp) as [Hhp1 _].
  destruct (pathSafe_plain _ Hq') as [Hq1 _].
  set (rest := String "/" (String "/" ((h ++ p) ++ q))).
  assert (Eraw : compose s h p q = s ++ String ":" rest).
  { unfold compose, rest. rewrite append_assoc. reflexivity. }
  assert (Hrest : forall d, url.oneOf "#?" d = true -> lacks d rest = true).
  { intros d Hd. unfold rest, lacks. cbn [all].
    fold (lacks d ((h ++ p) ++ q)). unfold lacks. rewrite all_app.
    fold (lacks d (h ++ p)). fold (lacks d q).
    rewrite (hostSafe_lacks d (h ++ p)), (pathSafe_lacks d q); try assumption.
    - destruct (Ascii.eqb "/" d) eqn:E; [| reflexivity].
      apply Ascii.eqb_eq in E. subst d. discriminate.
    - cbn in Hd |- *. destruct (Ascii.eqb d "#"), (Ascii.eqb d "?");
        (reflexivity || discriminate). }
  assert (Hraw : forall d, url.oneOf "#?" d = true ->
                           lacks d (s ++ String ":" rest) = true).
  { intros d Hd. unfold lacks. rewrite all_app. cbn [all].
    fold (lacks d s). fold (lacks d rest).
    rewrite (schemeSafe_lacks d s Hd Hs'), (Hrest d Hd).
    destruct (Ascii.eqb ":" d) eqn:E; [| reflexivity].
    apply Ascii.eqb_eq in E. subst d. discriminate. }
  rewrite Eraw. unfold url.Parse.
  rewrite (Cut_lacks "#" _ (Hraw "#"%char eq_refl)).
  assert (Eparse : url.parse (s ++ String ":" rest) false
                   = url.Ok (location s h p q)).
  { unfold url.parse.
    rewrite stringContainsCTLByte_none.
    2:{ rewrite all_app. cbn [all]. unfold rest. cbn [all]. rewrite all_app.
        rewrite Hhp1, Hq1.
        replace (all notCTL s) with true; [reflexivity |].
        symmetry. revert Hs'. apply all_impl. intros c Hc.
        unfold schemeSafe in Hc. apply andb_prop in Hc as [Hc _].
        apply andb_prop in Hc as [Hc _]. apply andb_prop in Hc as [Hc _].
        exact Hc. }
    rewrite andb_false_r.
    replace (s ++ String ":" rest =? "*") with false.
    2:{ symmetry. apply String.eqb_neq. destruct s as [| c [| c' s]];
          cbn; discriminate. }
    rewrite (getScheme_name s rest Hs). cbn [url.bind].
    rewrite (HasSuffix_lacks "?" rest (Hrest "?"%char eq_refl)). cbn [andb].
    rewrite (Cut_lacks "?" rest (Hrest "?"%char eq_refl)).
    rewrite (ToLower_nonEmpty s Hs).
    subst rest.
    assert (E1 : forall x, strings.HasPrefix (String "/" (String "/" x)) "/" = true)
      by reflexivity.
    assert (E2 : forall x, strings.HasPrefix (String "/" (String "/" x)) "//" = true)
      by (intros x; destruct x; reflexivity).
    assert (E3 : forall x, strings.from 2 (String "/" (String "/" x)) = x)
      by (intros x; destruct x; reflexivity).
    rewrite E1, E2, !E3. cbn [negb andb orb].
    assert (Hslash : lacks "/" (h ++ p) = true)
      by (apply hostSafe_lacks; [reflexivity | exact Hhp]).
    rewrite (split_authority (h ++ p) q Hslash Hq).
    unfold url.parseAuthority, strings.LastIndex.
    rewrite (LastIndexFrom_lacks "@" (h ++ p) 0).
    2:{ apply hostSafe_lacks; [reflexivity | exact Hhp]. }
    rewrite (parseHost_plain h p Hh Hp). cbn [url.bind].
    rewrite (setPath_plain _ q Hq). reflexivity.
  }
  rewrite Eparse. reflexivity.
Qed.


Lemma Cut_before (d c : ascii) (pre post : string) :
  lacks d pre = true -> Ascii.eqb c d = false ->
  exists post' frag found,
    strings.Cut (pre ++ String c post) (String d EmptyString)
    = (pre ++ String c post', frag, found).
Proof.
  intros Hpre Hc. unfold strings.Cut, strings.Index.
  rewrite (IndexFrom_skip d pre _ 0 Hpre). cbn [strings.IndexFrom].
  rewrite HasPrefix_byte, Hc. cbn [Nat.add].
  destruct (strings.IndexFrom (S (String.length pre)) post (String d EmptyString))
    as [j |] eqn:E.
  - apply IndexFrom_ge in E.
    replace j with (String.length pre + S (j - S (String.length pre))) by lia.
    rewrite upto_app_more. cbn [strings.upto]. eauto.
  - eauto.
Qed.

(** X3. A control character (a byte below 0x20, or 0x7f) anywhere before the
    first [#] of the text makes [WithServerURL] end the process: the error
    is "net/url: invalid control character in URL", and the endpoint field
    is nil at the exit. A trailing line feed is such a byte. *)
Theorem server_url_control_byte_is_fatal
  (pre post : string) (c : ascii) (opts : options)
  (Hpre : lacks "#" pre = true) (Hc : notCTL c = false) :
  exists u,
    WithServerURL (pre ++ String c post) opts
    = Fatal (url.UrlError "parse" u
               (url.errorString "net/url: invalid control character in URL"))
        (mk_options None (httpClient opts) (model opts) (maritacaOptions opts)
           (customModelTemplate opts) (system opts) (format opts)).
Proof.
  assert (Hne : Ascii.eqb c "#" = false).
  { destruct (Ascii.eqb c "#") eqn:E; [| reflexivity].
    apply Ascii.eqb_eq in E. subst c. discriminate. }
  destruct (Cut_before "#" c pre post Hpre Hne) as [post' [frag [found E]]].
  exists (pre ++ String c post'). apply WithServerURL_Err.
  unfold url.Parse. rewrite E. unfold url.parse.
  rewrite (stringContainsCTLByte_some pre post' c Hc). reflexivity.
Qed.

Lemma server_url_control_byte_is_fatal_witness :
  lacks "#" "http://localhost:8080" = true
  /\ notCTL scenario.LF = false
  /\ exists u,
       WithServerURL ("http://localhost:8080" ++ String scenario.LF "") defaultOptions
       = Fatal (url.UrlError "parse" u
                  (url.errorString "net/url: invalid control character in URL"))
           (mk_options None (httpClient defaultOptions) (model defaultOptions)
              (maritacaOptions defaultOptions)
              (customModelTemplate defaultOptions) (system defaultOptions)
              (format defaultOptions)).
Proof.
  split; [reflexivity |]. split; [reflexivity |].
  apply (server_url_control_byte_is_fatal "http://localhost:8080" "" scenario.LF
           defaultOptions); reflexivity.
Defined.



(** X5. On every plain endpoint [scheme://host[:port][/path]] the modifier
    [WithServerURL] returns, and the location it stores has the scheme in
    lower case, the host with its port, and the path; nothing else of the
    struct changes. *)
Theorem server_url_plain_endpoint (s h p q : string) (opts : options)
  (Hs : isSchemeName s = true) (Hh : isHostName h = true)
  (Hp : url.validOptionalPort p = true) (Hq : isAbsPath q = true) :
  WithServerURL (compose s h p q) opts
  = Returned (mk_options (Some (location s h p q)) (httpClient opts)
                (model opts) (maritacaOptions opts)
                (customModelTemplate opts) (system opts) (format opts)).
Proof. apply WithServerURL_Ok, Parse_endpoint; assumption. Qed.

Lemma server_url_plain_endpoint_witness :
  isSchemeName "HTTPS" = true /\ isHostName "chat.maritaca.ai" = true
  /\ url.validOptionalPort ":443" = true /\ isAbsPath "/api/v1" = true
  /\ WithServerURL "HTTPS://chat.maritaca.ai:443/api/v1" defaultOptions
     = Returned (mk_options
                   (Some (url.mkURL "https" "" None "chat.maritaca.ai:443"
                            "/api/v1" "" false false "" "" ""))
                   (httpClient defaultOptions) (model defaultOptions)
                   (maritacaOptions defaultOptions)
                   (customModelTemplate defaultOptions)
                   (system defaultOptions) (format defaultOptions)).
Proof.
  repeat (split; [reflexivity |]).
  apply (server_url_plain_endpoint "HTTPS" "chat.maritaca.ai" ":443" "/api/v1"
           defaultOptions); reflexivity.
Defined.


Lemma ToLower_scheme (s : string) :
  isSchemeName s = true ->
  isSchemeName (strings.ToLower s) = true
  /\ strings.ToLower (strings.ToLower s) = strings.ToLower s.
Proof.
  intros Hs.
  assert (Hall : forall t, all schemeChar t = true ->
             all schemeChar (strings.ToLower t) = true
             /\ strings.ToLower (strings.ToLower t) = strings.ToLower t).
  { induction t as [| c t IH]; cbn [all strings.ToLower]; [now split |].
    intros H. apply andb_prop in H as [Hc Ht]. destruct (IH Ht) as [IH1 IH2].
    pose proof (forall_ascii_spec _ schemeChar_safe c) as Hsafe.
    cbv beta in Hsafe. rewrite Hc in Hsafe. cbn [implb] in Hsafe.
    unfold schemeSafe in Hsafe.
    apply andb_prop in Hsafe as [Hsafe Hidem].
    apply andb_prop in Hsafe as [_ Hlow].
    apply Ascii.eqb_eq in Hidem.
    rewrite Hlow, IH1, Hidem, IH2. now split. }
  destruct s as [| c s]; [discriminate |].
  cbn [isSchemeName] in Hs. apply andb_prop in Hs as [Hc Hs].
  assert (Hcs : all schemeChar (String c s) = true).
  { cbn [all]. unfold schemeChar at 1. rewrite Hc, Hs. reflexivity. }
  destruct (Hall _ Hcs) as [H1 H2]. split; [| exact H2].
  cbn [strings.ToLower all isSchemeName] in H1 |- *.
  apply andb_prop in H1 as [_ H1]. rewrite H1, andb_true_r.
  assert (Ha : forall_ascii (fun a => implb (url.isAlpha a)
                                  (url.isAlpha (strings.lowerByte a))) = true)
    by (vm_compute; reflexivity).
  pose proof (forall_ascii_spec _ Ha c) as Ha'. cbv beta in Ha'.
  rewrite Hc in Ha'. exact Ha'.
Qed.

Lemma String_location (s h p q : string) :
  isSchemeName s = true -> isHostName h = true ->
  url.validOptionalPort p = true -> isAbsPath q = true ->
  url.String (location s h p q) = compose (strings.ToLower s) h p q.
Proof.
  intros Hs Hh Hp Hq.
  assert (Hhp : all hostSafe (h ++ p) = true).
  { unfold isHostName in Hh. apply andb_prop in Hh as [_ Hh'].
    rewrite all_app, (all_bytes hostChar hostSafe h hostChar_safe Hh'),
      (port_safe p Hp). reflexivity. }
  destruct (hostSafe_plain _ Hhp) as [_ [_ Hhost]].
  destruct (pathSafe_plain _ (absPath_safe q Hq)) as [_ [_ Hpath]].
  unfold url.String, url.EscapedPath, location.
  cbn [url.Scheme url.Opaque url.User url.Host url.Path url.RawPath
       url.OmitHost url.ForceQuery url.RawQuery url.Fragment url.RawFragment].
  rewrite (escape_plain _ _ Hhost), (escape_plain _ _ Hpath).
  unfold compose, url.nonEmpty.
  change (EmptyString =? EmptyString) with true. cbn [negb andb orb].
  rewrite (ToLower_nonEmpty s Hs).
  replace (h ++ p =? "") with false.
  2:{ unfold isHostName, url.nonEmpty in Hh. apply andb_prop in Hh as [Hne _].
      destruct h; [discriminate | reflexivity]. }
  replace (q =? "*") with false.
  2:{ destruct q as [| c q]; [reflexivity |]. cbn [isAbsPath] in Hq.
      apply andb_prop in Hq as [Hc _]. apply Ascii.eqb_eq in Hc. subst c.
      reflexivity. }
  replace (negb (q =? "") && negb (strings.HasPrefix q "/")) with false.
  2:{ destruct q as [| c q]; [reflexivity |]. cbn [isAbsPath] in Hq.
      apply andb_prop in Hq as [Hc _]. rewrite HasPrefix_byte, Hc.
      reflexivity. }
  cbn [negb andb orb].
  replace ((strings.ToLower s ++ ":") ++ ("//" ++ "" ++ h ++ p) ++ "" =? "")
    with false by (destruct s; [discriminate | reflexivity]).
  cbn [andb]. rewrite !append_nil_r, !append_assoc. reflexivity.
Qed.

(** X6. The location stored for a plain endpoint prints ([String]) as the
    endpoint with its scheme in lower case, and [WithServerURL] on the
    printed text stores the same location as on the original text. *)
Theorem server_url_print_parse (s h p q : string) (opts : options)
  (Hs : isSchemeName s = true) (Hh : isHostName h = true)
  (Hp : url.validOptionalPort p = true) (Hq : isAbsPath q = true) :
  url.String (location s h p q) = compose (strings.ToLower s) h p q
  /\ WithServerURL (url.String (location s h p q)) opts
     = WithServerURL (compose s h p q) opts.
Proof.
  destruct (ToLower_scheme s Hs) as [Hs' Hidem].
  rewrite (String_location s h p q Hs Hh Hp Hq). split; [reflexivity |].
  rewrite (WithServerURL_Ok _ _ opts (Parse_endpoint _ h p q Hs' Hh Hp Hq)).
  rewrite (WithServerURL_Ok _ _ opts (Parse_endpoint s h p q Hs Hh Hp Hq)).
  unfold location. rewrite Hidem. reflexivity.
Qed.

Lemma server_url_print_parse_witness :
  isSchemeName "HTTP" = true /\ isHostName "localhost" = true
  /\ url.validOptionalPort ":8080" = true /\ isAbsPath "" = true
  /\ url.String (location "HTTP" "localhost" ":8080" "")
     = "http://localhost:8080"
  /\ WithServerURL "http://localhost:8080" defaultOptions
     = WithServerURL "HTTP://localhost:8080" defaultOptions.
Proof.
  repeat (split; [reflexivity |]).
  apply (server_url_print_parse "HTTP" "localhost" ":8080" "" defaultOptions);
    reflexivity.
Defined.


Lemma opaqueSafe_lacks (d : ascii) (s : string) :
  url.oneOf "#?" d = true -> all opaqueSafe s = true -> lacks d s = true.
Proof.
  intros Hd. apply all_impl. intros c Hc. unfold opaqueSafe in Hc.
  apply andb_prop in Hc as [_ Hc]. apply negb_true_iff in Hc.
  apply negb_true_iff, Ascii.eqb_neq. intros ->. congruence.
Qed.

Lemma opaqueSafe_notCTL (s : string) :
  all opaqueSafe s = true -> all notCTL s = true.
Proof.
  apply all_impl. intros c Hc. unfold opaqueSafe in Hc.
  apply andb_prop in Hc as [Hc _]. exact Hc.
Qed.

Lemma schemeChar_opaqueSafe :
  forall_ascii (fun c => implb (schemeChar c || Ascii.eqb c ":")
                           (opaqueSafe c)) = true.
Proof. vm_compute. reflexivity. Qed.

Lemma Parse_opaque (s rest : string) :
  isSchemeName s = true -> all opaqueSafe rest = true ->
  strings.HasPrefix rest "/" = false ->
  url.Parse (s ++ String ":" rest)
  = url.Ok (url.mkURL (strings.ToLower s) rest None "" "" "" false false
              "" "" "").
Proof.
  intros Hs Hrest Hslash.
  assert (Hs' : all opaqueSafe s = true).
  { apply (all_bytes (fun c => schemeChar c || Ascii.eqb c ":") opaqueSafe s
             schemeChar_opaqueSafe).
    destruct s as [| c s]; [discriminate |]. cbn in Hs |- *.
    apply andb_prop in Hs as [Hc Hs]. unfold schemeChar at 1.
    rewrite Hc. cbn [orb andb]. revert Hs. apply all_impl.
    intros a Ha. rewrite Ha. reflexivity. }
  assert (Hraw : all opaqueSafe (s ++ String ":" rest) = true).
  { rewrite all_app. cbn [all]. rewrite Hs', Hrest. reflexivity. }
  unfold url.Parse.
  rewrite (Cut_lacks "#" _ (opaqueSafe_lacks "#" _ eq_refl Hraw)).
  unfold url.parse.
  rewrite (stringContainsCTLByte_none _ (opaqueSafe_notCTL _ Hraw)).
  rewrite andb_false_r.
  replace (s ++ String ":" rest =? "*") with false.
  2:{ symmetry. apply String.eqb_neq. destruct s as [| c [| c' s]];
        cbn; discriminate. }
  rewrite (getScheme_name s rest Hs). cbn [url.bind].
  rewrite (HasSuffix_lacks "?" rest (opaqueSafe_lacks "?" _ eq_refl Hrest)).
  cbn [andb].
  rewrite (Cut_lacks "?" rest (opaqueSafe_lacks "?" _ eq_refl Hrest)).
  rewrite (ToLower_nonEmpty s Hs), Hslash. reflexivity.
Qed.

(** X7. A text [name:rest] where [name] is a scheme name and [rest] does
    not start with a slash (and has no control character, [?] or [#]) does
    not fail: [WithServerURL] returns, with [name] in lower case as the
    scheme, [rest] as the opaque part, and an empty host. So
    "localhost:8080" is stored with scheme "localhost" and no host. *)
Theorem server_url_without_slashes_is_opaque
  (s rest : string) (opts : options)
  (Hs : isSchemeName s = true) (Hrest : all opaqueSafe rest = true)
  (Hslash : strings.HasPrefix rest "/" = false) :
  WithServerURL (s ++ ":" ++ rest) opts
  = Returned (mk_options
                (Some (url.mkURL (strings.ToLower s) rest None "" "" ""
                         false false "" "" ""))
                (httpClient opts) (model opts) (maritacaOptions opts)
                (customModelTemplate opts) (system opts) (format opts)).
Proof. apply WithServerURL_Ok, Parse_opaque; assumption. Qed.

Lemma server_url_without_slashes_is_opaque_witness :
  isSchemeName "localhost" = true /\ all opaqueSafe "8080" = true
  /\ strings.HasPrefix "8080" "/" = false
  /\ WithServerURL "localhost:8080" defaultOptions
     = Returned (mk_options
                   (Some (url.mkURL "localhost" "8080" None "" "" ""
                            false false "" "" ""))
                   (httpClient defaultOptions) (model defaultOptions)
                   (maritacaOptions defaultOptions)
                   (customModelTemplate defaultOptions)
                   (system defaultOptions) (format defaultOptions)).
Proof.
  repeat (split; [reflexivity |]).
  apply (server_url_without_slashes_is_opaque "localhost" "8080"
           defaultOptions); reflexivity.
Defined.

Lemma hostChar_facts :
  forall_ascii (fun c => implb (hostChar c)
                           (opaqueSafe c && negb (url.oneOf "/:*" c)
                            && (url.isAlpha c || url.isDigit c
                                || url.oneOf "+-." c))) = true.
Proof. vm_compute. reflexivity. Qed.

(** X8. A text [host:rest] with no scheme before it, whose host (letters,
    digits, dots and hyphens) does not start with a letter (an IPv4 address,
    say) and whose [rest] has no control character, [?] or [#], makes
    [WithServerURL] end the process with "first path segment in URL cannot
    contain colon"; the endpoint field is nil at the exit. *)
Theorem server_url_numeric_host_is_fatal
  (h rest : string) (opts : options)
  (Hh : isNumericHost h = true) (Hrest : all opaqueSafe rest = true) :
  WithServerURL (h ++ ":" ++ rest) opts
  = Fatal (url.UrlError "parse" (h ++ ":" ++ rest)
             (url.errorString
                "first path segment in URL cannot contain colon"))
      (mk_options None (httpClient opts) (model opts) (maritacaOptions opts)
         (customModelTemplate opts) (system opts) (format opts)).
Proof.
  apply WithServerURL_Err.
  destruct h as [| c h]; [discriminate |].
  cbn [isNumericHost] in Hh. apply andb_prop in Hh as [Hc Hh].
  apply negb_true_iff in Hc.
  pose proof (all_bytes _ _ _ hostChar_facts Hh) as Hf.
  assert (Hsafe : all opaqueSafe (String c h) = true).
  { revert Hf. apply all_impl. intros a Ha.
    apply andb_prop in Ha as [Ha _]. apply andb_prop in Ha as [Ha _].
    exact Ha. }
  assert (Hlacks : forall d, url.oneOf "/:*" d = true ->
                             lacks d (String c h) = true).
  { intros d Hd. revert Hf. apply all_impl. intros a Ha.
    apply andb_prop in Ha as [Ha _]. apply andb_prop in Ha as [_ Ha].
    apply negb_true_iff in Ha. apply negb_true_iff, Ascii.eqb_neq.
    intros ->. congruence. }
  set (raw := String c h ++ ":" ++ rest).
  assert (Hraw : all opaqueSafe raw = true).
  { unfold raw. rewrite all_app. cbn [append all]. rewrite Hrest.
    cbn [all] in Hsafe. rewrite Hsafe. reflexivity. }
  unfold url.Parse.
  rewrite (Cut_lacks "#" _ (opaqueSafe_lacks "#" _ eq_refl Hraw)).
  unfold url.parse.
  rewrite (stringContainsCTLByte_none _ (opaqueSafe_notCTL _ Hraw)).
  rewrite andb_false_r.
  assert (Hstar : Ascii.eqb c "*" = false).
  { pose proof (Hlacks "*"%char eq_refl) as L. cbn [lacks all] in L.
    apply andb_prop in L as [L _]. apply negb_true_iff in L. exact L. }
  assert (Hslash : Ascii.eqb c "/" = false).
  { pose proof (Hlacks "/"%char eq_refl) as L. cbn [lacks all] in L.
    apply andb_prop in L as [L _]. apply negb_true_iff in L. exact L. }
  assert (Hdig : url.isDigit c || url.oneOf "+-." c = true).
  { cbn [all] in Hf. apply andb_prop in Hf as [Hf _].
    apply andb_prop in Hf as [_ Hf]. rewrite Hc in Hf.
    rewrite <- orb_assoc in Hf. exact Hf. }
  replace (raw =? "*") with false.
  2:{ symmetry. apply String.eqb_neq. unfold raw. cbn [append].
      intros E. injection E as E _. subst c. discriminate. }
  replace (url.getScheme raw) with (url.Ok (EmptyString, raw)).
  2:{ unfold url.getScheme, raw. cbn [append url.getSchemeFrom].
      rewrite Hc, Hdig. reflexivity. }
  cbn [url.bind].
  rewrite (HasSuffix_lacks "?" raw (opaqueSafe_lacks "?" _ eq_refl Hraw)).
  cbn [andb].
  rewrite (Cut_lacks "?" raw (opaqueSafe_lacks "?" _ eq_refl Hraw)).
  cbn [strings.ToLower]. change (EmptyString =? EmptyString) with true.
  replace (strings.HasPrefix raw "/") with false
    by (unfold raw; cbn [append]; rewrite HasPrefix_byte, Hslash; reflexivity).
  cbn [negb andb].
  destruct (Cut_before "/" ":" (String c h) rest (Hlacks "/"%char eq_refl)
              eq_refl) as [post' [frag [found E]]].
  change (String c h ++ String ":" rest) with raw in E. rewrite E.
  unfold strings.Contains, strings.Index.
  rewrite (IndexFrom_skip ":" (String c h) _ 0 (Hlacks ":"%char eq_refl)).
  rewrite IndexFrom_hit. reflexivity.
Qed.

Lemma server_url_numeric_host_is_fatal_witness :
  isNumericHost "127.0.0.1" = true /\ all opaqueSafe "8080" = true
  /\ WithServerURL "127.0.0.1:8080" defaultOptions
     = Fatal (url.UrlError "parse" "127.0.0.1:8080"
                (url.errorString
                   "first path segment in URL cannot contain colon"))
         (mk_options None (httpClient defaultOptions) (model defaultOptions)
            (maritacaOptions defaultOptions)
            (customModelTemplate defaultOptions) (system defaultOptions)
            (format defaultOptions)).
Proof.
  repeat (split; [reflexivity |]).
  apply (server_url_numeric_host_is_fatal "127.0.0.1" "8080" defaultOptions);
    reflexivity.
Defined.


Lemma ToLower_idem (s : string) :
  strings.ToLower (strings.ToLower s) = strings.ToLower s.
Proof.
  assert (H : forall_ascii (fun c => Ascii.eqb
                 (strings.lowerByte (strings.lowerByte c))
                 (strings.lowerByte c)) = true) by (vm_compute; reflexivity).
  induction s as [| c s IH]; cbn [strings.ToLower]; [reflexivity |].
  pose proof (forall_ascii_spec _ H c) as Hc. cbv beta in Hc.
  apply Ascii.eqb_eq in Hc. rewrite Hc, IH. reflexivity.
Qed.

Lemma setPath_keeps (u u' : url.URL) (p : string) :
  url.setPath u p = url.Ok u' ->
  url.Scheme u' = url.Scheme u /\ url.Opaque u' = url.Opaque u
  /\ url.User u' = url.User u /\ url.Host u' = url.Host u.
Proof.
  unfold url.setPath. destruct (url.unescape p url.encodePath); cbn [url.bind];
    [| discriminate].
  intros E. injection E as <-. repeat split.
Qed.

Lemma setFragment_keeps (u u' : url.URL) (f : string) :
  url.setFragment u f = url.Ok u' ->
  url.Scheme u' = url.Scheme u /\ url.Opaque u' = url.Opaque u
  /\ url.User u' = url.User u /\ url.Host u' = url.Host u
  /\ url.Path u' = url.Path u.
Proof.
  unfold url.setFragment.
  destruct (url.unescape f url.encodeFragment); cbn [url.bind];
    [| discriminate].
  intros E. injection E as <-. repeat split.
Qed.

Lemma parse_shape (raw : string) (u : url.URL) :
  url.parse raw false = url.Ok u -> wellShaped u.
Proof.
  unfold url.parse.
  destruct (url.stringContainsCTLByte raw); [discriminate |].
  rewrite andb_false_r.
  destruct (raw =? "*").
  { intros E. injection E as <-. split; [reflexivity |]. intros H. now elim H. }
  destruct (url.getScheme raw) as [[scheme0 rest0] | e]; cbn [url.bind];
    [| discriminate].
  destruct (if strings.HasSuffix rest0 "?" && (strings.CountByte rest0 "?" =? 1)%nat
            then (true, strings.upto (String.length rest0 - 1) rest0, EmptyString)
            else let '(r, q, _) := strings.Cut rest0 "?" in (false, r, q))
    as [[fq rest1] rq].
  destruct (negb (strings.HasPrefix rest1 "/")
            && negb (strings.ToLower scheme0 =? "")) eqn:Eop.
  { intros E. injection E as <-. split; cbn; [apply ToLower_idem |].
    intros _. apply andb_prop in Eop as [_ Eop]. apply negb_true_iff in Eop.
    apply String.eqb_neq in Eop. repeat split. exact Eop. }
  rewrite andb_false_r.
  destruct (negb (strings.HasPrefix rest1 "/")
            && (let '(segment, _, _) := strings.Cut rest1 "/" in
                strings.Contains segment ":")); [discriminate |].
  assert (Hkeep : forall v u', url.Opaque v = EmptyString ->
                    url.Scheme v = strings.ToLower scheme0 ->
                    url.setPath v rest1 = url.Ok u' -> wellShaped u').
  { intros v u' Ho Hsch E. apply setPath_keeps in E as (E1 & E2 & _).
    split; [rewrite E1, Hsch; apply ToLower_idem |].
    intros H. rewrite E2, Ho in H. now elim H. }
  destruct ((negb (strings.ToLower scheme0 =? "")
             || negb false && negb (strings.HasPrefix rest1 "///"))
            && strings.HasPrefix rest1 "//").
  { destruct (match strings.Index (strings.from 2 rest1) "/" with
              | Some i => (strings.upto i (strings.from 2 rest1),
                           strings.from i (strings.from 2 rest1))
              | None => (strings.from 2 rest1, EmptyString)
              end) as [authority rest'].
    destruct (url.parseAuthority authority) as [[user host] | e];
      cbn [url.bind]; [| discriminate].
    intros E. apply setPath_keeps in E as (E1 & E2 & _).
    split; [rewrite E1; apply ToLower_idem |].
    intros H. rewrite E2 in H. now elim H. }
  destruct (negb (strings.ToLower scheme0 =? "") && strings.HasPrefix rest1 "/");
    apply Hkeep; reflexivity.
Qed.

(** X9. Whatever the text, when [WithServerURL] returns, the scheme of the
    stored location is in lower case, and a stored location with an opaque
    part has a scheme and neither host, path nor user. *)
Theorem server_url_stored_shape
  (rawURL : string) (opts opts' : options) (u : url.URL)
  (Hrun : WithServerURL rawURL opts = Returned opts')
  (Hurl : maritacaServerURL opts' = Some u) :
  strings.ToLower (url.Scheme u) = url.Scheme u
  /\ (url.Opaque u <> EmptyString ->
      url.Scheme u <> EmptyString /\ url.Host u = EmptyString
      /\ url.Path u = EmptyString /\ url.User u = None).
Proof.
  unfold WithServerURL in Hrun.
  destruct (url.Parse rawURL) as [u0 | e] eqn:E; [| discriminate].
  injection Hrun as <-. cbn in Hurl. injection Hurl as ->.
  unfold url.Parse in E.
  destruct (strings.Cut rawURL "#") as [[raw frag] found].
  destruct (url.parse raw false) as [u1 | e] eqn:E1; [| discriminate].
  apply parse_shape in E1.
  destruct (frag =? ""); [injection E as <-; exact E1 |].
  destruct (url.setFragment u1 frag) as [u2 | e] eqn:E2; [| discriminate].
  injection E as <-. apply setFragment_keeps in E2 as (H1 & H2 & H3 & H4 & H5).
  destruct E1 as [S1 S2]. split; [rewrite H1; exact S1 |].
  rewrite H1, H2, H3, H4, H5. exact S2.
Qed.

Lemma server_url_stored_shape_witness :
  WithServerURL "MailTo:team@maritaca.ai" defaultOptions
  = Returned (mk_options
                (Some (url.mkURL "mailto" "team@maritaca.ai" None "" "" ""
                         false false "" "" ""))
                None "" (maritacaOptions defaultOptions) "" "" "")
  /\ strings.ToLower "mailto" = "mailto"
  /\ ("team@maritaca.ai" <> EmptyString ->
      "mailto" <> EmptyString /\ EmptyString = EmptyString
      /\ EmptyString = EmptyString /\ @None url.Userinfo = None).
Proof.
  split; [vm_compute; reflexivity |].
  apply (server_url_stored_shape "MailTo:team@maritaca.ai" defaultOptions
           (mk_options
              (Some (url.mkURL "mailto" "team@maritaca.ai" None "" "" ""
                       false false "" "" ""))
              None "" (maritacaOptions defaultOptions) "" "" "")
           (url.mkURL "mailto" "team@maritaca.ai" None "" "" ""
              false false "" "" ""));
    [vm_compute; reflexivity | reflexivity].
Defined.

(** ** The texts the parser rejects *)

(** The parser rejects a text with a control byte before its first [#]. *)
Lemma Parse_control_byte (pre post : string) (c : ascii) :
  lacks "#" pre = true -> notCTL c = false ->
  exists u,
    url.Parse (pre ++ String c post)
    = url.Err (url.UrlError "parse" u
                 (url.errorString "net/url: invalid control character in URL")).
Proof.
  intros Hpre Hc.
  assert (Hne : Ascii.eqb c "#" = false).
  { destruct (Ascii.eqb c "#") eqn:E; [| reflexivity].
    apply Ascii.eqb_eq in E. subst c. discriminate. }
  destruct (Cut_before "#" c pre post Hpre Hne) as [post' [frag [found E]]].
  exists (pre ++ String c post').
  unfold url.Parse. rewrite E. unfold url.parse.
  rewrite (stringContainsCTLByte_some pre post' c Hc). reflexivity.
Qed.

(** C2. For every text that [url.Parse] rejects (it returns an error),
    [WithServerURL] ends the process with that error: it does not return,
    nothing is reported to the caller, and no location is stored (the
    endpoint field is nil at the exit, the other fields are untouched).
    Every text with a control character (a byte below 0x20, or 0x7f) before
    its first [#] is rejected, so the text "not a url" followed by a line
    feed takes the fatal path. *)
Theorem server_url_rejected_is_fatal :
  (forall rawURL opts err,
      url.Parse rawURL = url.Err err ->
      WithServerURL rawURL opts
      = Fatal err (mk_options None (httpClient opts) (model opts)
                     (maritacaOptions opts) (customModelTemplate opts)
                     (system opts) (format opts)))
  /\ (forall pre c post opts,
        lacks "#" pre = true -> notCTL c = false ->
        exists err,
          url.Parse (pre ++ String c post) = url.Err err
          /\ WithServerURL (pre ++ String c post) opts
             = Fatal err (mk_options None (httpClient opts) (model opts)
                            (maritacaOptions opts) (customModelTemplate opts)
                            (system opts) (format opts)))
  /\ (forall opts,
        exists err,
          WithServerURL not_a_url_LF opts
          = Fatal err (mk_options None (httpClient opts) (model opts)
                         (maritacaOptions opts) (customModelTemplate opts)
                         (system opts) (format opts))).
Proof.
  assert (Hctl : forall pre c post opts,
        lacks "#" pre = true -> notCTL c = false ->
        exists err,
          url.Parse (pre ++ String c post) = url.Err err
          /\ WithServerURL (pre ++ String c post) opts
             = Fatal err (mk_options None (httpClient opts) (model opts)
                            (maritacaOptions opts) (customModelTemplate opts)
                            (system opts) (format opts))).
  { intros pre c post opts Hpre Hc.
    destruct (Parse_control_byte pre post c Hpre Hc) as [u E].
    eexists. split; [exact E | apply WithServerURL_Err, E]. }
  split; [| split].
  - intros rawURL opts err E. apply WithServerURL_Err, E.
  - exact Hctl.
  - intros opts.
    destruct (Hctl "not a url" LF EmptyString opts eq_refl eq_refl)
      as [err [_ E]].
    exists err. exact E.
Qed.

Lemma server_url_rejected_is_fatal_witness :
  lacks "#" "http://localhost:8080" = true
  /\ notCTL LF = false
  /\ exists err,
       WithServerURL ("http://localhost:8080" ++ String LF "") defaultOptions
       = Fatal err (mk_options None (httpClient defaultOptions)
                      (model defaultOptions) (maritacaOptions defaultOptions)
                      (customModelTemplate defaultOptions)
                      (system defaultOptions) (format defaultOptions)).
Proof.
  split; [reflexivity |]. split; [reflexivity |].
  destruct server_url_rejected_is_fatal as [_ [H _]].
  destruct (H "http://localhost:8080" LF EmptyString defaultOptions
              eq_refl eq_refl) as [err [_ E]].
  exists err. exact E.
Defined.

(** C2, counterexample to the claim as worded, on every text that is not a
    syntactically valid URL: the text "not a url" has spaces, which are no
    bytes of a URI, and yet [WithServerURL] does not end the process on it;
    it returns, and a location whose path (and raw path) is that text is
    stored. *)
Lemma server_url_invalid_is_stored :
  onlyURIBytes "not a url" = false
  /\ WithServerURL "not a url" defaultOptions
     = Returned (mk_options
                   (Some (url.mkURL "" "" None "" "not a url" "not a url"
                            false false "" "" ""))
                   (httpClient defaultOptions) (model defaultOptions)
                   (maritacaOptions defaultOptions)
                   (customModelTemplate defaultOptions)
                   (system defaultOptions) (format defaultOptions)).
Proof.
  split; [reflexivity |]. apply WithServerURL_Ok. vm_compute. reflexivity.
Qed.

End ParseFacts.
